(** * cellprofiler/gui/namesubscriber.py

    A shallow embedding of the two-column menu aligner
    [align_twosided_items] and of the [NameSubcriberComboBox] widget,
    together with the properties its specification states about them.

    Conventions.  Python integers are [Z]; Python [str] values are [string];
    a raised exception is a value of [exn].  The module is Python 2 code
    (classic wx API), so [/] between two [int]s is floor division, which is
    what [Z.div] computes for a non-zero divisor. *)

From Stdlib Require Import ZArith List String Ascii Bool Lia DecimalString.
From Stdlib Require Import Permutation Sorted.
Import ListNotations.

Open Scope string_scope.
Open Scope Z_scope.

(** ** Python primitives used by the module *)

Module Py.

(** The exceptions the module's code can raise. *)
Inductive exn : Type :=
| ValueError          (* max() of an empty sequence *)
| ZeroDivisionError   (* integer division or modulo by zero *)
| IndexError.         (* list index out of range *)

(** [s * n] on a [str]: [n] copies of [s], none when [n <= 0]. *)
Fixpoint str_repeat (s : string) (n : nat) : string :=
  match n with
  | O => ""
  | S n' => s ++ str_repeat s n'
  end.

Definition str_mul (s : string) (n : Z) : string :=
  str_repeat s (Z.to_nat n).

(** [max(xs)] on a list of integers. *)
Definition max (xs : list Z) : exn + Z :=
  match xs with
  | [] => inl ValueError
  | x :: xs' => inr (fold_left Z.max xs' x)
  end.

(** [a / b] on integers (Python 2): floor division. *)
Definition div (a b : Z) : exn + Z :=
  if b =? 0 then inl ZeroDivisionError else inr (a / b).

(** [xs[i]]: negative indices count from the end. *)
Definition index {A : Type} (xs : list A) (i : Z) : exn + A :=
  let n := Z.of_nat (List.length xs) in
  let j := if i <? 0 then i + n else i in
  if (0 <=? j) && (j <? n) then
    match nth_error xs (Z.to_nat j) with
    | Some x => inr x
    | None => inl IndexError
    end
  else inl IndexError.

(** [str(n)]. *)
Definition str (n : Z) : string := NilZero.string_of_int (Z.to_int n).

(** ["%02d" % n]: at least two characters, padded on the left with
    zeros; the sign counts towards the width. *)
Definition fmt_02d (n : Z) : string :=
  let s := str n in
  if (String.length s <? 2)%nat then "0" ++ s else s.

(** Truth value of a list and of a string. *)
Definition truthy {A : Type} (xs : list A) : bool :=
  match xs with [] => false | _ :: _ => true end.

Definition str_truthy (s : string) : bool :=
  match s with EmptyString => false | String _ _ => true end.

End Py.

(** ** The part of wx the module relies on *)

Module Wx.

(** A menu item: its identifier and its label. *)
Record MenuItem : Type := mkMenuItem { Id : Z; ItemLabel : string }.

Definition SetItemLabel (label : string) (item : MenuItem) : MenuItem :=
  {| Id := Id item; ItemLabel := label |}.

(** The value of [wx.Platform] on Windows. *)
Definition WXMSW : string := "__WXMSW__".

End Wx.

Definition TAB : string := String (ascii_of_nat 9) "".

(** ** align_twosided_items *)

Section Align.

(** [wx.Platform], and [parent.GetTextExtent], which yields the pair
    (width, height) of a rendered string. *)
Variable Platform : string.
Variable GetTextExtent : string -> Z * Z.

Variable min_spacing : Z.

(** In the comments below [left] and [right] are the loop variables of
    the source, here [ltext] and [rtext]. *)

(** ["%s\t%s" % (left, right)] *)
Definition tab_label (ltext rtext : string) : string :=
  ltext ++ TAB ++ rtext.

(** The Windows loop, lines 23-24: items are relabelled as far as [zip]
    reaches, the others are left alone. *)
Fixpoint tab_loop (items : list Wx.MenuItem) (left_texts right_texts : list string)
  : list Wx.MenuItem :=
  match items, left_texts, right_texts with
  | item :: items', ltext :: lefts', rtext :: rights' =>
      Wx.SetItemLabel (tab_label ltext rtext) item :: tab_loop items' lefts' rights'
  | _, _, _ => items
  end.

(** Lines 27-28: the width of [left + " " * min_spacing + right] for each
    zipped pair. *)
Definition natural_width (ltext rtext : string) : Z :=
  fst (GetTextExtent (ltext ++ Py.str_mul " " min_spacing ++ rtext)).

Fixpoint widths_of (left_texts right_texts : list string) : list Z :=
  match left_texts, right_texts with
  | ltext :: lefts', rtext :: rights' =>
      natural_width ltext rtext :: widths_of lefts' rights'
  | _, _ => []
  end.

(** Line 30. *)
Definition spacewidth : Z :=
  fst (GetTextExtent "  ") - fst (GetTextExtent " ").

(** Line 33: [int(min_spacing + (maxwidth - initial_width) / spacewidth)].
    The widths are [int]s, so [/] floors, and raises when [spacewidth] is
    zero; [int] then has nothing to do. *)
Definition numspaces (maxwidth initial_width : Z) : Py.exn + Z :=
  match Py.div (maxwidth - initial_width) spacewidth with
  | inl e => inl e
  | inr q => inr (min_spacing + q)
  end.

(** ["%s%s%s" % (left, ' ' * numspaces, right)] *)
Definition padded_label (ltext : string) (n : Z) (rtext : string) : string :=
  ltext ++ Py.str_mul " " n ++ rtext.

(** The loop of lines 31-34.  The result is the menu items as the loop
    leaves them, and the exception that ended it, if any: an item whose
    iteration raised, and the items after it, keep their labels. *)
Fixpoint pad_loop (maxwidth : Z) (items : list Wx.MenuItem)
    (left_texts right_texts : list string) (widths : list Z)
  : list Wx.MenuItem * option Py.exn :=
  match items, left_texts, right_texts, widths with
  | item :: items', ltext :: lefts', rtext :: rights', initial_width :: widths' =>
      match numspaces maxwidth initial_width with
      | inl e => (items, Some e)
      | inr n =>
          let (rest, e) := pad_loop maxwidth items' lefts' rights' widths' in
          (Wx.SetItemLabel (padded_label ltext n rtext) item :: rest, e)
      end
  | _, _, _, _ => (items, None)
  end.

(** The function itself.  The menu items are mutable objects: the
    function returns them as they are when it ends, with the exception
    it raised, if any. *)
Definition align_twosided_items (items : list Wx.MenuItem)
    (left_texts right_texts : list string)
  : list Wx.MenuItem * option Py.exn :=
  if Py.truthy items then
    if String.eqb Platform Wx.WXMSW then
      (tab_loop items left_texts right_texts, None)
    else
      let widths := widths_of left_texts right_texts in
      match Py.max widths with
      | inl e => (items, Some e)
      | inr maxwidth =>
          pad_loop maxwidth items left_texts right_texts widths
      end
  else (items, None).

End Align.

Arguments tab_label ltext rtext : simpl never.
Arguments padded_label ltext n rtext : simpl never.

(** ** The aligner as a function from pairs to labels

    The specification presents the aligner as
    [align(pairs, minSpacing, mode, measureText)], returning one label per
    pair.  [right_menu] reaches that use of [align_twosided_items] by
    appending one menu item per row, labelled "filler", and passing the two
    columns as [left_texts] and [right_texts] (lines 95-102). *)

Inductive AlignmentMode : Type := TabDelimited | SpacePadded.

Definition LabeledPair : Type := (string * string)%type.

Definition platform_of (mode : AlignmentMode) : string :=
  match mode with
  | TabDelimited => Wx.WXMSW
  | SpacePadded => "__WXGTK__"
  end.

Definition filler_items (n : nat) : list Wx.MenuItem :=
  map (fun i => Wx.mkMenuItem (Z.of_nat i) "filler") (seq 0 n).

Definition text_extent (measureText : string -> Z) : string -> Z * Z :=
  fun s => (measureText s, 0).

Definition align (pairs : list LabeledPair) (minSpacing : Z)
    (mode : AlignmentMode) (measureText : string -> Z)
  : Py.exn + list string :=
  match align_twosided_items (platform_of mode) (text_extent measureText)
          minSpacing (filler_items (List.length pairs))
          (map fst pairs) (map snd pairs) with
  | (items, None) => inr (map Wx.ItemLabel items)
  | (_, Some e) => inl e
  end.

(** [measureText(s) = len(s)]. *)
Definition len (s : string) : Z := Z.of_nat (String.length s).

(** The aggregates of the space-padded algorithm, for a list of pairs. *)
Definition pair_width (measureText : string -> Z) (minSpacing : Z)
    (p : LabeledPair) : Z :=
  natural_width (text_extent measureText) minSpacing (fst p) (snd p).

Definition spaceUnit (measureText : string -> Z) : Z :=
  spacewidth (text_extent measureText).

Definition maxWidth (measureText : string -> Z) (minSpacing : Z)
    (pairs : list LabeledPair) : Z :=
  match Py.max (map (pair_width measureText minSpacing) pairs) with
  | inr m => m
  | inl _ => 0
  end.

(** ** A state monad with exceptions, for the widget's methods

    A method runs on the widget's state and leaves a state behind whether
    it returns or raises: what it assigned before raising stays assigned. *)

Module StateExn.

Definition M (S A : Type) : Type := S -> S * (Py.exn + A).

Definition ret {S A : Type} (a : A) : M S A := fun s => (s, inr a).

Definition bind {S A B : Type} (m : M S A) (k : A -> M S B) : M S B :=
  fun s =>
    match m s with
    | (s', inr a) => k a s'
    | (s', inl e) => (s', inl e)
    end.

Definition lift {S A : Type} (r : Py.exn + A) : M S A := fun s => (s, r).

Definition gets {S A : Type} (f : S -> A) : M S A := fun s => (s, inr (f s)).

Definition modify {S : Type} (f : S -> S) : M S unit := fun s => (f s, inr tt).

Definition exec {S A : Type} (m : M S A) (s : S) : S := fst (m s).

Definition outcome {S A : Type} (m : M S A) (s : S) : Py.exn + A := snd (m s).

End StateExn.

Import StateExn.

Notation "x <- m ;; k" := (bind m (fun x => k))
  (at level 61, m at next level, right associativity).
Notation "m ;; k" := (bind m (fun _ => k))
  (at level 61, right associativity).

(** ** NameSubcriberComboBox *)

(** A choice is a triple (Name, Parent, modulenum). *)
Definition choice : Type := (string * string * Z)%type.

Definition choice_name (c : choice) : string := fst (fst c).

(** What the widget asks of its [wx.ComboBox]: the [Value] and [Selection]
    properties, and assignment to [Value] and to [Items]. *)
Class ComboBox (C : Type) : Type := {
  cb_Value : C -> string;
  cb_Selection : C -> Z;
  cb_set_Value : string -> C -> C;
  cb_set_Items : list string -> C -> C
}.

(** Reading [Value] gives back what was last assigned to it. *)
Definition Value_reads_back (C : Type) `{ComboBox C} : Prop :=
  forall (v : string) (c : C), cb_Value (cb_set_Value v c) = v.

Section Widget.

Context {C : Type} `{ComboBox C}.

(** The fields the methods below read or write; the sizer, the event
    bindings and the callbacks are not among them. *)
Record NameSubcriberComboBox : Type := mkWidget {
  orig_choices : list choice;
  IDs : list Z;
  combo_dlg : C;
  annotation_Label : string   (* annotation_dlg.Label *)
}.

Definition set_orig_choices (choices : list choice) (w : NameSubcriberComboBox) :=
  mkWidget choices (IDs w) (combo_dlg w) (annotation_Label w).

Definition set_combo (f : C -> C) (w : NameSubcriberComboBox) :=
  mkWidget (orig_choices w) (IDs w) (f (combo_dlg w)) (annotation_Label w).

Definition set_Label (label : string) (w : NameSubcriberComboBox) :=
  mkWidget (orig_choices w) (IDs w) (combo_dlg w) label.

(** ['(from %s #%02d)' % (ch[1], ch[2])] *)
Definition from_label (parent : string) (num : Z) : string :=
  "(from " ++ parent ++ " #" ++ Py.fmt_02d num ++ ")".

Definition update_annotation : M NameSubcriberComboBox unit :=
  modify (set_Label "") ;;
  choices <- gets orig_choices ;;
  if Py.truthy choices then
    selection <- gets (fun w => cb_Selection (combo_dlg w)) ;;
    ch <- lift (Py.index choices selection) ;;
    if Py.str_truthy (snd (fst ch)) then
      modify (set_Label (from_label (snd (fst ch)) (snd ch)))
    else ret tt
  else ret tt.

(** [self.Refresh()] asks for a repaint; it changes none of the fields. *)
Definition Refresh : M NameSubcriberComboBox unit := ret tt.

Definition GetItems : M NameSubcriberComboBox (list choice) :=
  gets orig_choices.

Definition GetValue : M NameSubcriberComboBox string :=
  gets (fun w => cb_Value (combo_dlg w)).

Definition SetValue (value : string) : M NameSubcriberComboBox unit :=
  modify (set_combo (cb_set_Value value)) ;;
  update_annotation ;;
  Refresh.

Definition SetItems (choices : list choice) : M NameSubcriberComboBox unit :=
  modify (set_orig_choices choices) ;;
  current <- GetValue ;;
  modify (set_combo (cb_set_Items (map choice_name choices))) ;;
  SetValue current ;;
  update_annotation ;;
  Refresh.

End Widget.

Arguments NameSubcriberComboBox C : clear implicits.

(** A combo box that stores what it is given: assigning [Items] clears the
    selection (as the source notes for the Mac), assigning [Value] selects
    the entry of that name when there is one. *)
Module PlainCombo.

Record t : Type := mk { Items : list string; Value : string; Selection : Z }.

Fixpoint find (v : string) (items : list string) (i : Z) : Z :=
  match items with
  | [] => -1
  | x :: items' => if String.eqb x v then i else find v items' (i + 1)
  end.

Definition set_Value (v : string) (c : t) : t :=
  mk (Items c) v (find v (Items c) 0).

Definition set_Items (items : list string) (c : t) : t :=
  mk items "" (-1).

#[global] Instance combo : ComboBox t := {
  cb_Value := Value;
  cb_Selection := Selection;
  cb_set_Value := set_Value;
  cb_set_Items := set_Items
}.

End PlainCombo.


(** ** What the loops compute *)

(** Label [k] of [labels] goes to item [k], as far as both lists reach. *)
Fixpoint relabel (items : list Wx.MenuItem) (labels : list string)
  : list Wx.MenuItem :=
  match items, labels with
  | item :: items', label :: labels' =>
      Wx.SetItemLabel label item :: relabel items' labels'
  | _, _ => items
  end.

Definition tab_labels (left_texts right_texts : list string) : list string :=
  map (fun p => tab_label (fst p) (snd p)) (combine left_texts right_texts).

Definition padded_labels (GetTextExtent : string -> Z * Z) (min_spacing maxwidth : Z)
    (left_texts right_texts : list string) : list string :=
  map (fun p =>
         padded_label (fst p)
           (min_spacing
            + (maxwidth - natural_width GetTextExtent min_spacing (fst p) (snd p))
              / spacewidth GetTextExtent)
           (snd p))
      (combine left_texts right_texts).

(** How many items a call relabels. *)
Definition reach (items : list Wx.MenuItem) (left_texts right_texts : list string)
  : nat :=
  Nat.min (List.length items)
          (Nat.min (List.length left_texts) (List.length right_texts)).

(** The label a call gives to an item it reaches, from that item's two
    texts and the aggregates of the call. *)
Definition item_label (Platform : string) (GetTextExtent : string -> Z * Z)
    (min_spacing : Z) (left_texts right_texts : list string)
    (ltext rtext : string) : string :=
  if String.eqb Platform Wx.WXMSW then tab_label ltext rtext
  else
    let maxwidth :=
      match Py.max (widths_of GetTextExtent min_spacing left_texts right_texts) with
      | inr m => m
      | inl _ => 0
      end in
    padded_label ltext
      (min_spacing
       + (maxwidth - natural_width GetTextExtent min_spacing ltext rtext)
         / spacewidth GetTextExtent)
      rtext.

(** The label of one row, from the row itself and, in space-padded mode,
    the two aggregates [maxWidth] and [spaceUnit]. *)
Definition aligned_label (mode : AlignmentMode) (measureText : string -> Z)
    (minSpacing maxwidth spaceunit : Z) (p : LabeledPair) : string :=
  match mode with
  | TabDelimited => fst p ++ TAB ++ snd p
  | SpacePadded =>
      fst p
      ++ Py.str_mul " "
           (minSpacing + (maxwidth - pair_width measureText minSpacing p) / spaceunit)
      ++ snd p
  end.

(** ** The space-padded algorithm in the specification's words

    Steps 1 to 5 of the specification, written independently of the code:
    the maximum is a right fold, and [floor(minSpacing + (maxWidth - w) /
    spaceUnit)] is the floor of the fraction
    [(minSpacing * spaceUnit + (maxWidth - w)) / spaceUnit]. *)

Fixpoint spec_spaces (n : nat) : string :=
  match n with
  | O => ""
  | S n' => String " "%char (spec_spaces n')
  end.

Definition spec_width (measureText : string -> Z) (minSpacing : Z)
    (p : LabeledPair) : Z :=
  measureText (fst p ++ spec_spaces (Z.to_nat minSpacing) ++ snd p).

Definition spec_maximum (xs : list Z) : Z :=
  match xs with
  | [] => 0
  | x :: xs' => fold_right Z.max x xs'
  end.

Definition spec_spaceUnit (measureText : string -> Z) : Z :=
  measureText "  " - measureText " ".

Definition spec_extraSpaces (minSpacing maxwidth spaceunit w : Z) : Z :=
  (minSpacing * spaceunit + (maxwidth - w)) / spaceunit.

Definition spec_space_padded (measureText : string -> Z) (minSpacing : Z)
    (pairs : list LabeledPair) : list string :=
  let maxwidth := spec_maximum (map (spec_width measureText minSpacing) pairs) in
  let spaceunit := spec_spaceUnit measureText in
  map (fun p =>
         fst p
         ++ spec_spaces
              (Z.to_nat (spec_extraSpaces minSpacing maxwidth spaceunit
                           (spec_width measureText minSpacing p)))
         ++ snd p)
      pairs.

(** A [measureText] that adds up over concatenation, as a sum of character
    widths does. *)
Definition additive (measureText : string -> Z) : Prop :=
  forall s t : string, measureText (s ++ t) = measureText s + measureText t.

(** ** More of Python: [sorted] and [dict] *)

Module Builtins.

Section Sorted.

Context {A : Type}.
Variable leb : A -> A -> bool.

(** [sorted(xs)] is a stable sort.  Insertion from the right, each element
    going in front of the first one it is not greater than, is one. *)
Fixpoint insert (a : A) (xs : list A) : list A :=
  match xs with
  | [] => [a]
  | b :: xs' => if leb a b then a :: xs else b :: insert a xs'
  end.

Definition sorted (xs : list A) : list A := fold_right insert [] xs.

End Sorted.

(** A [dict] as the list of its entries, one per key. *)
Section Dict.

Context {K V : Type}.
Variable eqb : K -> K -> bool.

Fixpoint get (k : K) (d : list (K * V)) : option V :=
  match d with
  | [] => None
  | (k', v) :: d' => if eqb k k' then Some v else get k d'
  end.

(** [d[k] = v] *)
Fixpoint set (k : K) (v : V) (d : list (K * V)) : list (K * V) :=
  match d with
  | [] => [(k, v)]
  | (k', v') :: d' => if eqb k k' then (k, v) :: d' else (k', v') :: set k v d'
  end.

End Dict.

End Builtins.

(** ** wx menus *)

Module WxMenu.

(** A menu without submenus is the list of its items; [Append] adds one
    at the end. *)
Definition Menu : Type := list Wx.MenuItem.

Definition Append (id : Z) (label : string) (menu : Menu) : Menu :=
  (menu ++ [Wx.mkMenuItem id label])%list.

(** The popup menu: every entry is an item together with its submenu. *)
Definition TopMenu : Type := list (Wx.MenuItem * Menu).

Definition AppendMenu (id : Z) (label : string) (submenu : Menu)
    (menu : TopMenu) : TopMenu :=
  (menu ++ [(Wx.mkMenuItem id label, submenu)])%list.

Definition MenuItems (menu : TopMenu) : list Wx.MenuItem := map fst menu.

Definition ID_ANY : Z := -1.

End WxMenu.

(** ** right_menu *)

(** The tuples [(num, name, annotation, num, id)] that [right_menu] sorts,
    and Python's order on them: componentwise, left to right. *)
Definition sort_tuple : Type := (Z * string * string * Z * Z)%type.

Definition tuple_compare (a b : sort_tuple) : comparison :=
  let '(n1, s1, t1, m1, i1) := a in
  let '(n2, s2, t2, m2, i2) := b in
  match n1 ?= n2 with
  | Eq =>
      match String.compare s1 s2 with
      | Eq =>
          match String.compare t1 t2 with
          | Eq => match m1 ?= m2 with Eq => i1 ?= i2 | c => c end
          | c => c
          end
      | c => c
      end
  | c => c
  end.

Definition tuple_leb (a b : sort_tuple) : bool :=
  match tuple_compare a b with Gt => false | _ => true end.

(** An element of [choices_sorted_by_num]:
    [(name, annotation, num, choiceid)]. *)
Definition menu_choice : Type := (string * string * Z * Z)%type.

Definition mc_name (c : menu_choice) : string := fst (fst (fst c)).
Definition mc_annotation (c : menu_choice) : string := snd (fst (fst c)).
Definition mc_num (c : menu_choice) : Z := snd (fst c).
Definition mc_id (c : menu_choice) : Z := snd c.

(** Lines 92-94. *)
Definition to_sort_tuple (p : choice * Z) : sort_tuple :=
  let '((name, annotation, num), id) := p in (num, name, annotation, num, id).

Definition drop_first (t : sort_tuple) : menu_choice :=
  let '(_, name, annotation, num, id) := t in (name, annotation, num, id).

Definition choices_sorted_by_num (orig_choices : list choice) (IDs : list Z)
  : list menu_choice :=
  map drop_first
    (Builtins.sorted tuple_leb (map to_sort_tuple (combine orig_choices IDs))).

(** Lines 95-96. *)
Definition fill_all_menu (choices : list menu_choice) : WxMenu.Menu :=
  fold_left (fun all_menu c => WxMenu.Append (mc_id c) "filler" all_menu)
    choices [].

(** Lines 100-102. *)
Definition all_left_texts (choices : list menu_choice) : list string :=
  map mc_name choices.

Definition all_right_text (c : menu_choice) : string :=
  if Py.str_truthy (mc_annotation c)
  then "(" ++ mc_annotation c ++ " #" ++ Py.fmt_02d (mc_num c) ++ ")"
  else "".

Definition all_right_texts (choices : list menu_choice) : list string :=
  map all_right_text choices.

(** The dictionary [submenus]: its keys are pairs [(num, annotation)]. *)
Definition submenu_key : Type := (Z * string)%type.

Definition submenu_key_eqb (a b : submenu_key) : bool :=
  (fst a =? fst b) && String.eqb (snd a) (snd b).

Definition submenu_key_leb (a b : submenu_key) : bool :=
  match fst a ?= fst b with
  | Lt => true
  | Gt => false
  | Eq => String.leb (snd a) (snd b)
  end.

Definition submenus_dict : Type := list (submenu_key * WxMenu.Menu).

(** [annotation in submenus], line 108.  The keys of [submenus] are
    2-tuples and [annotation] is a [str]; a [str] equals no tuple, so the
    test finds nothing, whatever the dictionary holds. *)
Definition str_in_submenus (annotation : string) (submenus : submenus_dict)
  : bool := false.

(** Line 110, [submenus[num, annotation].Append(choiceid, "%s" % name)]:
    [None] stands for the KeyError of a missing key. *)
Definition submenu_append (k : submenu_key) (id : Z) (label : string)
    (submenus : submenus_dict) : option submenus_dict :=
  match Builtins.get submenu_key_eqb k submenus with
  | None => None
  | Some submenu =>
      Some (Builtins.set submenu_key_eqb k (WxMenu.Append id label submenu)
              submenus)
  end.

(** Lines 105-110. *)
Fixpoint fill_submenus (choices : list menu_choice) (submenus : submenus_dict)
  : option submenus_dict :=
  match choices with
  | [] => Some submenus
  | c :: choices' =>
      if negb (Py.str_truthy (mc_annotation c)) then
        fill_submenus choices' submenus
      else
        let k := (mc_num c, mc_annotation c) in
        let submenus1 :=
          if negb (str_in_submenus (mc_annotation c) submenus)
          then Builtins.set submenu_key_eqb k [] submenus
          else submenus in
        match submenu_append k (mc_id c) (mc_name c) submenus1 with
        | None => None
        | Some submenus2 => fill_submenus choices' submenus2
        end
  end.

(** [sorted(submenus.items())] and [sorted(submenus.keys())]: the keys are
    distinct, so the items are ordered by their keys alone. *)
Definition sorted_items (submenus : submenus_dict) : submenus_dict :=
  Builtins.sorted (fun a b => submenu_key_leb (fst a) (fst b)) submenus.

Definition sorted_keys (submenus : submenus_dict) : list submenu_key :=
  Builtins.sorted submenu_key_leb (map fst submenus).

(** Lines 111-113. *)
Definition fill_menu (all_menu : WxMenu.Menu) (submenus : submenus_dict)
  : WxMenu.TopMenu :=
  fold_left
    (fun menu kv => WxMenu.AppendMenu WxMenu.ID_ANY "filler" (snd kv) menu)
    (sorted_items submenus)
    (WxMenu.AppendMenu WxMenu.ID_ANY "All" all_menu []).

(** Lines 116-117. *)
Definition menu_left_texts (submenus : submenus_dict) : list string :=
  "All" :: map snd (sorted_keys submenus).

Definition menu_right_texts (submenus : submenus_dict) : list string :=
  "" :: map (fun k => "#" ++ Py.fmt_02d (fst k)) (sorted_keys submenus).

(** How a call of [right_menu] ends: with the menu it pops up, or with an
    exception. *)
Inductive popup : Type :=
| PopupMenu (menu : WxMenu.TopMenu)
| Raise (e : Py.exn)
| RaiseKeyError.

(** [right_menu].  [align_twosided_items] is called with its default
    [min_spacing] of 8 and with the combo box as [parent], whose
    [GetTextExtent] is the parameter here.  The items of a menu are
    objects: relabelling [menu.MenuItems] relabels the entries of [menu]. *)
Definition right_menu {C : Type} (Platform : string)
    (GetTextExtent : string -> Z * Z) (self : NameSubcriberComboBox C)
  : popup :=
  let choices := choices_sorted_by_num (orig_choices self) (IDs self) in
  match align_twosided_items Platform GetTextExtent 8
          (fill_all_menu choices)
          (all_left_texts choices) (all_right_texts choices) with
  | (_, Some e) => Raise e
  | (all_menu, None) =>
      match fill_submenus choices [] with
      | None => RaiseKeyError
      | Some submenus =>
          let menu := fill_menu all_menu submenus in
          match align_twosided_items Platform GetTextExtent 8
                  (WxMenu.MenuItems menu)
                  (menu_left_texts submenus) (menu_right_texts submenus) with
          | (_, Some e) => Raise e
          | (items, None) => PopupMenu (combine items (map snd menu))
          end
      end
  end.

(** ** __init__ *)

(** [wx.ComboBox(self, choices=..., value=..., style=wx.CB_READONLY)] *)
Class ComboBoxNew (C : Type) : Type := {
  cb_new : list string -> string -> C
}.

(** [wx.NewId()] hands out the next identifier of a running counter;
    [next_id] is where the counter stands when [__init__] is entered. *)
Definition new_ids (next_id : Z) (n : nat) : list Z :=
  map (fun k => next_id + Z.of_nat k) (seq 0 n).

(** Lines 51-53: the widths of which [annotation_dlg.MinSize] takes the
    maximum. *)
Definition min_size_widths (GetTextExtent : string -> Z * Z)
    (choices : list choice) : list Z :=
  map (fun ch : choice => fst (GetTextExtent (snd (fst ch) ++ " (from #00)")))
      choices.

(** [__init__], as far as the fields of the widget go.  [GetTextExtent] is
    that of the annotation's static text.  A constructor that raises
    leaves no widget behind. *)
Definition __init__ {C : Type} `{ComboBox C} `{ComboBoxNew C}
    (GetTextExtent : string -> Z * Z) (next_id : Z)
    (choices : list choice) (value : string)
  : Py.exn + NameSubcriberComboBox C :=
  let self :=
    mkWidget choices (new_ids next_id (List.length choices))
      (cb_new (map choice_name choices) value) "" in
  match Py.max (min_size_widths GetTextExtent choices) with
  | inl e => inl e
  | inr _ =>
      match update_annotation self with
      | (_, inl e) => inl e
      | (self', inr _) => inr self'
      end
  end.

(** The plain combo box, newly made: the value given selects its entry. *)
#[global] Instance plain_combo_new : ComboBoxNew PlainCombo.t := {
  cb_new items value :=
    PlainCombo.set_Value value (PlainCombo.mk items "" (-1))
}.

(** ** choice_made, add_callback, menu_selected *)

(** [xs.index(x)]: the first position of [x], ValueError when there is
    none. *)
Fixpoint list_index (xs : list Z) (x : Z) : Py.exn + Z :=
  match xs with
  | [] => inl Py.ValueError
  | y :: xs' =>
      if y =? x then inr 0
      else match list_index xs' x with
           | inl e => inl e
           | inr i => inr (i + 1)
           end
  end.

(** Assignment to the [Selection] property of the combo box. *)
Class ComboBoxSelect (C : Type) : Type := {
  cb_set_Selection : Z -> C -> C
}.

(** Reading [Selection] gives back what was last assigned to it. *)
Definition Selection_reads_back (C : Type) `{ComboBox C} `{ComboBoxSelect C}
  : Prop :=
  forall (i : Z) (c : C), cb_Selection (cb_set_Selection i c) = i.

(** The event handed to the handlers; [Id] is all they read of it. *)
Record CommandEvent : Type := mkEvent { evt_Id : Z }.

(** A registered callback is called with the event; it may change the
    widget and it may raise.  [self.callbacks] is the list of them, in the
    order of registration. *)
Definition callback (C : Type) : Type :=
  CommandEvent -> M (NameSubcriberComboBox C) unit.

Definition add_callback {C : Type} (cb : callback C)
    (callbacks : list (callback C)) : list (callback C) :=
  (callbacks ++ [cb])%list.

(** Lines 74-75. *)
Fixpoint run_callbacks {C : Type} (callbacks : list (callback C))
    (evt : CommandEvent) : M (NameSubcriberComboBox C) unit :=
  match callbacks with
  | [] => ret tt
  | cb :: callbacks' => cb evt ;; run_callbacks callbacks' evt
  end.

Definition choice_made {C : Type} `{ComboBox C}
    (callbacks : list (callback C)) (evt : CommandEvent)
  : M (NameSubcriberComboBox C) unit :=
  choices <- gets orig_choices ;;
  selection <- gets (fun w => cb_Selection (combo_dlg w)) ;;
  choice <- lift (Py.index choices selection) ;;
  update_annotation ;;
  run_callbacks callbacks evt ;;
  Refresh.

Definition menu_selected {C : Type} `{ComboBox C} `{ComboBoxSelect C}
    (callbacks : list (callback C)) (evt : CommandEvent)
  : M (NameSubcriberComboBox C) unit :=
  ids <- gets IDs ;;
  selection <- lift (list_index ids (evt_Id evt)) ;;
  modify (set_combo (cb_set_Selection selection)) ;;
  choice_made callbacks evt.

(** The plain combo box: selecting an entry shows its text. *)
#[global] Instance plain_combo_select : ComboBoxSelect PlainCombo.t := {
  cb_set_Selection i c :=
    PlainCombo.mk (PlainCombo.Items c)
      (nth (Z.to_nat i) (PlainCombo.Items c) "") i
}.

(** ** The read-only combo box

    [__init__] creates the combo box with [style=wx.CB_READONLY] (line
    49).  A model of that control, after the toolkit's documentation: the
    text it shows is that of the selected entry, and is empty when no
    entry is selected; assigning [Value] selects the first entry with that
    text, and is ignored when there is none; assigning [Items] replaces
    the entries and clears the selection (which is why [SetItems] assigns
    the old value again). *)

Module ReadOnlyCombo.

Record t : Type := mk { Items : list string; Selection : Z }.

Definition Value (c : t) : string :=
  if 0 <=? Selection c then nth (Z.to_nat (Selection c)) (Items c) "" else "".

Fixpoint position (v : string) (items : list string) : option nat :=
  match items with
  | [] => None
  | x :: items' =>
      if String.eqb x v then Some O
      else match position v items' with
           | Some i => Some (S i)
           | None => None
           end
  end.

Definition set_Value (v : string) (c : t) : t :=
  match position v (Items c) with
  | Some i => mk (Items c) (Z.of_nat i)
  | None => c
  end.

Definition set_Items (items : list string) (c : t) : t := mk items (-1).

#[global] Instance combo : ComboBox t := {
  cb_Value := Value;
  cb_Selection := Selection;
  cb_set_Value := set_Value;
  cb_set_Items := set_Items
}.

End ReadOnlyCombo.

(** ** Vocabulary for the properties of right_menu *)

(** The key under which a choice is filed in [submenus], and the item made
    for it there. *)
Definition choice_key (c : menu_choice) : submenu_key :=
  (mc_num c, mc_annotation c).

Definition choice_item (c : menu_choice) : Wx.MenuItem :=
  Wx.mkMenuItem (mc_id c) (mc_name c).

(** The last choice of a list that has an annotation and the key [k]. *)
Fixpoint last_annotated (k : submenu_key) (choices : list menu_choice)
  : option menu_choice :=
  match choices with
  | [] => None
  | c :: choices' =>
      match last_annotated k choices' with
      | Some c' => Some c'
      | None =>
          if Py.str_truthy (mc_annotation c) && submenu_key_eqb k (choice_key c)
          then Some c else None
      end
  end.

(** By number, then by text: the order of the first two components of a
    sorted tuple, and of a submenu key. *)
Definition num_then_text (n1 : Z) (s1 : string) (n2 : Z) (s2 : string) : Prop :=
  n1 < n2 \/ (n1 = n2 /\ String.leb s1 s2 = true).

(** ** Lemmas on the primitives *)

Lemma fold_left_max_ge (xs : list Z) (a : Z) : a <= fold_left Z.max xs a.
Proof.
  revert a; induction xs as [|x xs IH]; intros a; simpl; [lia|].
  specialize (IH (Z.max a x)); lia.
Qed.

Lemma fold_left_max_upper (xs : list Z) (a x : Z) :
  In x xs -> x <= fold_left Z.max xs a.
Proof.
  revert a; induction xs as [|y xs IH]; intros a; simpl; [tauto|].
  intros [->|Hin]; [|now apply IH].
  pose proof (fold_left_max_ge xs (Z.max a x)); lia.
Qed.

Lemma fold_left_max_in (xs : list Z) (a : Z) :
  fold_left Z.max xs a = a \/ In (fold_left Z.max xs a) xs.
Proof.
  revert a; induction xs as [|y xs IH]; intros a; simpl; [now left|].
  destruct (IH (Z.max a y)) as [E|Hin]; [|now right; right].
  rewrite E. destruct (Z.max_spec a y) as [[_ ->]|[_ ->]]; [right|]; auto.
Qed.

Lemma max_is_maximum (xs : list Z) (m : Z) :
  Py.max xs = inr m -> In m xs /\ (forall x, In x xs -> x <= m).
Proof.
  destruct xs as [|a xs]; simpl; [discriminate|].
  intros [= <-]. split.
  - destruct (fold_left_max_in xs a) as [->|Hin]; [now left|now right].
  - intros x [<-|Hin]; [apply fold_left_max_ge|now apply fold_left_max_upper].
Qed.

Lemma max_nonempty (xs : list Z) :
  xs <> [] -> exists m, Py.max xs = inr m.
Proof. destruct xs; [congruence|]; simpl; eauto. Qed.

Lemma length_append (s t : string) :
  String.length (s ++ t) = (String.length s + String.length t)%nat.
Proof. induction s as [|c s IH]; simpl; [reflexivity|now rewrite IH]. Qed.

Lemma str_repeat_length (s : string) (n : nat) :
  String.length (Py.str_repeat s n) = (n * String.length s)%nat.
Proof.
  induction n as [|n IH]; simpl; [reflexivity|].
  now rewrite length_append, IH.
Qed.

Lemma len_app (s t : string) : len (s ++ t) = len s + len t.
Proof. unfold len. rewrite length_append. lia. Qed.

Lemma len_spaces (n : Z) : len (Py.str_mul " " n) = Z.max 0 n.
Proof. unfold len, Py.str_mul. rewrite str_repeat_length. simpl. lia. Qed.

(** ** Lemmas on [relabel] *)

Lemma relabel_length (items : list Wx.MenuItem) (labels : list string) :
  List.length (relabel items labels) = List.length items.
Proof.
  revert labels; induction items as [|it items IH]; intros [|l labels];
    simpl; auto.
Qed.

Lemma relabel_Id (items : list Wx.MenuItem) (labels : list string) :
  map Wx.Id (relabel items labels) = map Wx.Id items.
Proof.
  revert labels; induction items as [|it items IH]; intros [|l labels];
    simpl; auto.
  now rewrite IH.
Qed.

Lemma relabel_within (items : list Wx.MenuItem) (labels : list string)
    (i : nat) (item : Wx.MenuItem) (label : string) :
  nth_error items i = Some item ->
  nth_error labels i = Some label ->
  nth_error (relabel items labels) i = Some (Wx.SetItemLabel label item).
Proof.
  revert labels i; induction items as [|it items IH]; intros [|l labels] [|i];
    simpl; try discriminate.
  - now intros [= ->] [= ->].
  - apply IH.
Qed.

Lemma relabel_beyond (items : list Wx.MenuItem) (labels : list string) (i : nat) :
  (List.length labels <= i)%nat ->
  nth_error (relabel items labels) i = nth_error items i.
Proof.
  revert labels i; induction items as [|it items IH]; intros [|l labels] [|i];
    simpl; auto; try lia.
  intros Hle. apply IH. lia.
Qed.

Lemma relabel_all (items : list Wx.MenuItem) (labels : list string) :
  List.length items = List.length labels ->
  map Wx.ItemLabel (relabel items labels) = labels.
Proof.
  revert labels; induction items as [|it items IH]; intros [|l labels];
    simpl; try discriminate; auto.
  intros [= Hlen]. now rewrite IH.
Qed.

Lemma filler_items_length (n : nat) : List.length (filler_items n) = n.
Proof. unfold filler_items. now rewrite length_map, length_seq. Qed.

(** ** Lemmas on the two loops *)

Section AlignFacts.

Variable Platform : string.
Variable GetTextExtent : string -> Z * Z.
Variable min_spacing : Z.

Lemma tab_loop_relabel (items : list Wx.MenuItem) (ls rs : list string) :
  tab_loop items ls rs = relabel items (tab_labels ls rs).
Proof.
  revert ls rs; induction items as [|it items IH]; intros [|l ls] [|r rs];
    simpl; auto.
  now rewrite IH.
Qed.

Lemma widths_of_combine (ls rs : list string) :
  widths_of GetTextExtent min_spacing ls rs
  = map (fun p => natural_width GetTextExtent min_spacing (fst p) (snd p))
        (combine ls rs).
Proof.
  revert rs; induction ls as [|l ls IH]; intros [|r rs]; simpl; auto.
  now rewrite IH.
Qed.

Lemma widths_of_nil (ls rs : list string) :
  widths_of GetTextExtent min_spacing ls rs = [] <-> ls = [] \/ rs = [].
Proof.
  destruct ls, rs; simpl; split; auto; try discriminate.
  intros [?|?]; discriminate.
Qed.

Lemma numspaces_ok (maxwidth w : Z) :
  spacewidth GetTextExtent <> 0 ->
  numspaces GetTextExtent min_spacing maxwidth w
  = inr (min_spacing + (maxwidth - w) / spacewidth GetTextExtent).
Proof.
  intros Hsw. unfold numspaces, Py.div.
  now destruct (Z.eqb_spec (spacewidth GetTextExtent) 0).
Qed.

Lemma numspaces_zero (maxwidth w : Z) :
  spacewidth GetTextExtent = 0 ->
  numspaces GetTextExtent min_spacing maxwidth w = inl Py.ZeroDivisionError.
Proof. intros Hsw. unfold numspaces, Py.div. now rewrite Hsw. Qed.

Lemma pad_loop_relabel (maxwidth : Z) (items : list Wx.MenuItem)
    (ls rs : list string) :
  spacewidth GetTextExtent <> 0 ->
  pad_loop GetTextExtent min_spacing maxwidth items ls rs
           (widths_of GetTextExtent min_spacing ls rs)
  = (relabel items (padded_labels GetTextExtent min_spacing maxwidth ls rs),
     None).
Proof.
  intros Hsw.
  revert ls rs; induction items as [|it items IH]; intros [|l ls] [|r rs];
    simpl; auto.
  rewrite numspaces_ok by assumption.
  unfold padded_labels in IH. now rewrite IH.
Qed.

Lemma pad_loop_zero (maxwidth : Z) (items : list Wx.MenuItem)
    (ls rs : list string) :
  spacewidth GetTextExtent = 0 ->
  items <> [] -> ls <> [] -> rs <> [] ->
  pad_loop GetTextExtent min_spacing maxwidth items ls rs
           (widths_of GetTextExtent min_spacing ls rs)
  = (items, Some Py.ZeroDivisionError).
Proof.
  intros Hsw Hi Hl Hr.
  destruct items as [|it items], ls as [|l ls], rs as [|r rs]; try congruence.
  simpl. now rewrite numspaces_zero.
Qed.

(** The five ways a call can go. *)

Lemma align_no_items (ls rs : list string) :
  align_twosided_items Platform GetTextExtent min_spacing [] ls rs = ([], None).
Proof. reflexivity. Qed.

Lemma align_msw (items : list Wx.MenuItem) (ls rs : list string) :
  Platform = Wx.WXMSW ->
  align_twosided_items Platform GetTextExtent min_spacing items ls rs
  = (relabel items (tab_labels ls rs), None).
Proof.
  intros ->. unfold align_twosided_items.
  rewrite String.eqb_refl, tab_loop_relabel.
  now destruct items.
Qed.

Lemma align_no_texts (items : list Wx.MenuItem) (ls rs : list string) :
  Platform <> Wx.WXMSW -> items <> [] -> ls = [] \/ rs = [] ->
  align_twosided_items Platform GetTextExtent min_spacing items ls rs
  = (items, Some Py.ValueError).
Proof.
  intros HP Hi Hnil. unfold align_twosided_items.
  destruct items as [|it items]; [congruence|]. simpl Py.truthy. cbv iota.
  apply String.eqb_neq in HP. rewrite HP.
  apply widths_of_nil in Hnil. now rewrite Hnil.
Qed.

Lemma align_zero_spacewidth (items : list Wx.MenuItem) (ls rs : list string) :
  Platform <> Wx.WXMSW -> items <> [] -> ls <> [] -> rs <> [] ->
  spacewidth GetTextExtent = 0 ->
  align_twosided_items Platform GetTextExtent min_spacing items ls rs
  = (items, Some Py.ZeroDivisionError).
Proof.
  intros HP Hi Hl Hr Hsw. unfold align_twosided_items.
  destruct items as [|it items]; [congruence|]. simpl Py.truthy. cbv iota.
  apply String.eqb_neq in HP. rewrite HP.
  destruct (max_nonempty (widths_of GetTextExtent min_spacing ls rs)) as [m Hm].
  { rewrite widths_of_nil. tauto. }
  cbv zeta. rewrite Hm. apply pad_loop_zero; auto; discriminate.
Qed.

Lemma align_padded (items : list Wx.MenuItem) (ls rs : list string) :
  Platform <> Wx.WXMSW -> items <> [] -> ls <> [] -> rs <> [] ->
  spacewidth GetTextExtent <> 0 ->
  exists maxwidth,
    Py.max (widths_of GetTextExtent min_spacing ls rs) = inr maxwidth /\
    align_twosided_items Platform GetTextExtent min_spacing items ls rs
    = (relabel items (padded_labels GetTextExtent min_spacing maxwidth ls rs),
       None).
Proof.
  intros HP Hi Hl Hr Hsw. unfold align_twosided_items.
  destruct items as [|it items]; [congruence|]. simpl Py.truthy. cbv iota.
  apply String.eqb_neq in HP. rewrite HP.
  destruct (max_nonempty (widths_of GetTextExtent min_spacing ls rs)) as [m Hm].
  { rewrite widths_of_nil. tauto. }
  exists m. split; [assumption|].
  cbv zeta. rewrite Hm. now apply pad_loop_relabel.
Qed.

(** A call, however it ends, leaves the same items in the same order. *)

Lemma pad_loop_Id (maxwidth : Z) (items : list Wx.MenuItem)
    (ls rs : list string) (ws : list Z) :
  map Wx.Id (fst (pad_loop GetTextExtent min_spacing maxwidth items ls rs ws))
  = map Wx.Id items.
Proof.
  revert ls rs ws; induction items as [|it items IH];
    intros [|l ls] [|r rs] [|w ws]; simpl; auto.
  destruct (numspaces GetTextExtent min_spacing maxwidth w); simpl; auto.
  specialize (IH ls rs ws).
  destruct (pad_loop GetTextExtent min_spacing maxwidth items ls rs ws).
  simpl in *. now rewrite IH.
Qed.

Lemma align_Id (items : list Wx.MenuItem) (ls rs : list string) :
  map Wx.Id
    (fst (align_twosided_items Platform GetTextExtent min_spacing items ls rs))
  = map Wx.Id items.
Proof.
  unfold align_twosided_items.
  destruct (Py.truthy items); [|reflexivity].
  destruct (Platform =? Wx.WXMSW)%string.
  - cbn [fst]. rewrite tab_loop_relabel. apply relabel_Id.
  - cbv zeta.
    destruct (Py.max (widths_of GetTextExtent min_spacing ls rs));
      [reflexivity|apply pad_loop_Id].
Qed.

End AlignFacts.

(** ** Lemmas on [align] *)

Lemma combine_fst_snd {A B : Type} (l : list (A * B)) :
  combine (map fst l) (map snd l) = l.
Proof.
  induction l as [|[a b] l IH]; simpl; [reflexivity|now rewrite IH].
Qed.

Lemma widths_of_pairs (m : string -> Z) (ms : Z) (pairs : list LabeledPair) :
  widths_of (text_extent m) ms (map fst pairs) (map snd pairs)
  = map (pair_width m ms) pairs.
Proof. now rewrite widths_of_combine, combine_fst_snd. Qed.

Lemma platform_of_space_padded : platform_of SpacePadded <> Wx.WXMSW.
Proof. discriminate. Qed.

Lemma map_eq_nil_iff {A B : Type} (f : A -> B) (l : list A) :
  map f l = [] <-> l = [].
Proof. destruct l; simpl; split; congruence. Qed.

Lemma filler_items_nonempty (n : nat) : n <> O -> filler_items n <> [].
Proof. destruct n; [congruence|discriminate]. Qed.

Lemma align_nil (ms : Z) (mode : AlignmentMode) (m : string -> Z) :
  align [] ms mode m = inr [].
Proof. reflexivity. Qed.

Lemma align_tab (pairs : list LabeledPair) (ms : Z) (m : string -> Z) :
  align pairs ms TabDelimited m
  = inr (map (fun p => tab_label (fst p) (snd p)) pairs).
Proof.
  unfold align. rewrite align_msw by reflexivity.
  unfold tab_labels. rewrite combine_fst_snd, relabel_all; [reflexivity|].
  now rewrite filler_items_length, length_map.
Qed.

Lemma align_space_zero (pairs : list LabeledPair) (ms : Z) (m : string -> Z) :
  pairs <> [] -> spaceUnit m = 0 ->
  align pairs ms SpacePadded m = inl Py.ZeroDivisionError.
Proof.
  intros Hne Hsu. unfold align.
  rewrite align_zero_spacewidth; auto using platform_of_space_padded.
  - apply filler_items_nonempty. now destruct pairs.
  - now rewrite map_eq_nil_iff.
  - now rewrite map_eq_nil_iff.
Qed.

Lemma align_space_padded (pairs : list LabeledPair) (ms : Z) (m : string -> Z) :
  spaceUnit m <> 0 ->
  align pairs ms SpacePadded m
  = inr (map (aligned_label SpacePadded m ms (maxWidth m ms pairs) (spaceUnit m))
             pairs).
Proof.
  intros Hsu. destruct pairs as [|p pairs]; [reflexivity|].
  unfold align.
  destruct (align_padded (platform_of SpacePadded) (text_extent m) ms
              (filler_items (List.length (p :: pairs)))
              (map fst (p :: pairs)) (map snd (p :: pairs)))
    as (mw & Hmax & ->); try discriminate; auto.
  rewrite widths_of_pairs in Hmax.
  unfold padded_labels. rewrite combine_fst_snd, relabel_all.
  - unfold maxWidth. rewrite Hmax. reflexivity.
  - now rewrite filler_items_length, length_map.
Qed.

Lemma maxWidth_is_maximum (m : string -> Z) (ms : Z) (pairs : list LabeledPair) :
  pairs <> [] ->
  In (maxWidth m ms pairs) (map (pair_width m ms) pairs) /\
  (forall p, In p pairs -> pair_width m ms p <= maxWidth m ms pairs).
Proof.
  intros Hne. unfold maxWidth.
  destruct (max_nonempty (map (pair_width m ms) pairs)) as [mw Hmw].
  { now rewrite map_eq_nil_iff. }
  rewrite Hmw. apply max_is_maximum in Hmw as [Hin Hub]. split; [assumption|].
  intros p Hp. apply Hub. now apply in_map.
Qed.

Lemma str_mul_max (s : string) (n : Z) :
  Py.str_mul s (Z.max 0 n) = Py.str_mul s n.
Proof.
  unfold Py.str_mul. f_equal. lia.
Qed.

Lemma str_repeat_spaces (n : nat) : Py.str_repeat " " n = spec_spaces n.
Proof. induction n as [|n IH]; simpl; [reflexivity|now rewrite IH]. Qed.

Lemma fold_max_symmetric (xs : list Z) (a : Z) :
  fold_left Z.max xs a = fold_right Z.max a xs.
Proof.
  apply fold_symmetric.
  - intros x y z. apply Z.max_assoc.
  - intros y. apply Z.max_comm.
Qed.

Lemma pair_width_spec (m : string -> Z) (ms : Z) (p : LabeledPair) :
  pair_width m ms p = spec_width m ms p.
Proof.
  unfold pair_width, natural_width, spec_width, text_extent, Py.str_mul.
  now rewrite str_repeat_spaces.
Qed.

Lemma maxWidth_spec (m : string -> Z) (ms : Z) (pairs : list LabeledPair) :
  maxWidth m ms pairs = spec_maximum (map (spec_width m ms) pairs).
Proof.
  unfold maxWidth.
  rewrite (map_ext _ _ (pair_width_spec m ms)).
  destruct (map (spec_width m ms) pairs) as [|w ws]; simpl; [reflexivity|].
  apply fold_max_symmetric.
Qed.

(** * The claims *)

(** ** C1 *)

(** C1, as stated, fails: with a [measureText] under which one space and
    two spaces are equally wide, [spaceUnit] is zero and the space-padded
    aligner raises ZeroDivisionError instead of producing labels. *)
Lemma C1_zero_space_unit_raises :
  spec_spaceUnit (fun _ => 7) = 0 /\
  align [("Foo", "Bar#01")] 8 SpacePadded (fun _ => 7)
  = inl Py.ZeroDivisionError /\
  align [("Foo", "Bar#01")] 8 SpacePadded (fun _ => 7)
  <> inr (spec_space_padded (fun _ => 7) 8 [("Foo", "Bar#01")]).
Proof. repeat split; vm_compute; discriminate. Qed.

(** C1 (amended): in SpacePadded mode, for every non-empty sequence of
    pairs, every non-negative minSpacing and every measureText whose
    spaceUnit = width("  ") - width(" ") is not zero, the aligner returns
    exactly what the specified algorithm gives: each pair is measured as
    width(left + minSpacing spaces + right), maxWidth is the maximum of
    these widths, and the row is left + floor(minSpacing + (maxWidth - w) /
    spaceUnit) spaces + right (no spaces when that number is negative). *)
Theorem C1_space_padded_algorithm
    (pairs : list LabeledPair) (minSpacing : Z) (measureText : string -> Z) :
  pairs <> [] ->
  0 <= minSpacing ->
  spec_spaceUnit measureText <> 0 ->
  align pairs minSpacing SpacePadded measureText
  = inr (spec_space_padded measureText minSpacing pairs).
Proof.
  intros _ _ Hsu.
  rewrite align_space_padded by exact Hsu.
  f_equal. unfold spec_space_padded. apply map_ext. intros p.
  unfold aligned_label, spec_extraSpaces.
  rewrite <- maxWidth_spec, <- pair_width_spec.
  change (spaceUnit measureText) with (spec_spaceUnit measureText).
  rewrite Z.div_add_l by exact Hsu.
  unfold Py.str_mul. now rewrite str_repeat_spaces.
Qed.

Lemma C1_space_padded_algorithm_witness :
  align [("Foo", "Bar#01"); ("Foobar", "B")] 2 SpacePadded len
  = inr (spec_space_padded len 2 [("Foo", "Bar#01"); ("Foobar", "B")]).
Proof.
  apply C1_space_padded_algorithm.
  - discriminate.
  - lia.
  - vm_compute. discriminate.
Defined.

(** ** C4 *)

(** C4: in TabDelimited mode, for every sequence of pairs, every minSpacing
    and every measureText, row i of the output is left_i + TAB + right_i,
    whatever minSpacing and measureText are; in particular
    align([{"Foo","Bar#01"}], 8, TabDelimited, m) is ["Foo\tBar#01"]. *)
Theorem C4_tab_delimited :
  (forall (pairs : list LabeledPair) (minSpacing : Z) (measureText : string -> Z),
      align pairs minSpacing TabDelimited measureText
      = inr (map (fun p => fst p ++ TAB ++ snd p) pairs)) /\
  (forall measureText : string -> Z,
      align [("Foo", "Bar#01")] 8 TabDelimited measureText
      = inr ["Foo" ++ TAB ++ "Bar#01"]).
Proof.
  split; intros; now rewrite align_tab.
Qed.

(** ** C5 *)

(** C5: for every minSpacing, mode and measureText, align on the empty
    sequence returns the empty sequence.  The test on [items] comes before
    everything else, so with no items nothing is measured and no maximum
    is taken, whatever the two text lists are. *)
Theorem C5_empty_input :
  (forall (minSpacing : Z) (mode : AlignmentMode) (measureText : string -> Z),
      align [] minSpacing mode measureText = inr []) /\
  (forall (Platform : string) (GetTextExtent : string -> Z * Z)
          (min_spacing : Z) (left_texts right_texts : list string),
      align_twosided_items Platform GetTextExtent min_spacing []
        left_texts right_texts = ([], None)).
Proof. split; reflexivity. Qed.

(** ** C2 *)

(** C2, as stated, fails: left and right texts of different lengths are
    accepted (the second item is simply not reached), a negative minSpacing
    is accepted, and an input that is well formed in the specification's
    sense can still raise. *)
Lemma C2_malformed_input_accepted :
  align_twosided_items "__WXGTK__" (text_extent len) 2 (filler_items 2)
    ["a"; "b"] ["x"]
  = ([Wx.mkMenuItem 0 "a  x"; Wx.mkMenuItem 1 "filler"], None) /\
  align [("a", "x")] (-3) SpacePadded len = inr ["ax"] /\
  align [("a", "x")] 8 SpacePadded (fun _ => 7) = inl Py.ZeroDivisionError.
Proof. split; [|split]; vm_compute; reflexivity. Qed.

(** When a call raises, and what. *)
Lemma align_exception
    (Platform : string) (GetTextExtent : string -> Z * Z) (min_spacing : Z)
    (items : list Wx.MenuItem) (left_texts right_texts : list string) :
  snd (align_twosided_items Platform GetTextExtent min_spacing items
         left_texts right_texts)
  = if negb (Py.truthy items) || String.eqb Platform Wx.WXMSW then None
    else if negb (Py.truthy left_texts) || negb (Py.truthy right_texts)
         then Some Py.ValueError
    else if spacewidth GetTextExtent =? 0 then Some Py.ZeroDivisionError
    else None.
Proof.
  destruct items as [|it items]; [reflexivity|].
  destruct (String.eqb_spec Platform Wx.WXMSW) as [HP|HP].
  { now rewrite align_msw. }
  cbn [Py.truthy negb orb].
  destruct left_texts as [|l ls].
  { rewrite align_no_texts; auto; discriminate. }
  destruct right_texts as [|r rs].
  { rewrite align_no_texts; auto; discriminate. }
  cbn [Py.truthy negb orb].
  destruct (Z.eqb_spec (spacewidth GetTextExtent) 0) as [Hsw|Hsw].
  - rewrite align_zero_spacewidth; auto; discriminate.
  - destruct (align_padded Platform GetTextExtent min_spacing
                (it :: items) (l :: ls) (r :: rs)) as (mw & _ & ->);
      auto; discriminate.
Qed.

(** C2 (amended): align has no InvalidArgument failure; text lists of
    different lengths and a negative minSpacing are accepted.  With no
    items, or on Windows (TabDelimited), it returns normally whatever the
    other arguments are; elsewhere it returns normally whenever neither
    text list is empty and spaceUnit is not zero. *)
Theorem C2_no_invalid_argument
    (Platform : string) (GetTextExtent : string -> Z * Z) (min_spacing : Z)
    (items : list Wx.MenuItem) (left_texts right_texts : list string) :
  items = [] \/ Platform = Wx.WXMSW \/
  (left_texts <> [] /\ right_texts <> [] /\ spacewidth GetTextExtent <> 0) ->
  snd (align_twosided_items Platform GetTextExtent min_spacing items
         left_texts right_texts) = None.
Proof.
  intros Hok. rewrite align_exception.
  destruct Hok as [->|[->|(Hl & Hr & Hsw)]]; [reflexivity| |].
  - rewrite String.eqb_refl. now rewrite orb_true_r.
  - destruct (negb (Py.truthy items) || (Platform =? Wx.WXMSW)%string);
      [reflexivity|].
    destruct left_texts; [congruence|]. destruct right_texts; [congruence|].
    cbn [Py.truthy negb orb].
    now destruct (Z.eqb_spec (spacewidth GetTextExtent) 0).
Qed.

Lemma C2_no_invalid_argument_witness :
  snd (align_twosided_items "__WXGTK__" (text_extent len) (-3)
         (filler_items 3) ["a"; "b"] ["x"]) = None.
Proof.
  apply C2_no_invalid_argument.
  right. right. split; [discriminate|]. split; [discriminate|].
  vm_compute. discriminate.
Defined.

(** ** C6 *)

(** C6, as stated, fails: in SpacePadded mode, with a measure under which
    spaceUnit is zero, one pair goes in and no label comes out. *)
Lemma C6_no_labels_at_zero_space_unit :
  align [("Foo", "Bar#01")] 8 SpacePadded (fun _ => 3)
  = inl Py.ZeroDivisionError /\
  ~ (exists out : list string,
        align [("Foo", "Bar#01")] 8 SpacePadded (fun _ => 3) = inr out /\
        List.length out = List.length [("Foo", "Bar#01")]).
Proof.
  split; [vm_compute; reflexivity|].
  intros (out & Hout & _). vm_compute in Hout. discriminate.
Qed.

(** C6 (amended): length and order preservation.  For every input pair
    sequence in TabDelimited mode, and in SpacePadded mode for every input
    that is empty or is measured with a spaceUnit other than zero, align
    returns labels, as many as there are pairs, and label i is computed
    from pair i alone (in SpacePadded mode together with the aggregates
    maxWidth and spaceUnit): the output is never reordered relative to
    the input. *)
Theorem C6_length_and_order
    (pairs : list LabeledPair) (minSpacing : Z) (mode : AlignmentMode)
    (measureText : string -> Z) :
  mode = TabDelimited \/ pairs = [] \/ spaceUnit measureText <> 0 ->
  exists out : list string,
    align pairs minSpacing mode measureText = inr out /\
    List.length out = List.length pairs /\
    forall (i : nat) (p : LabeledPair),
      nth_error pairs i = Some p ->
      nth_error out i
      = Some (aligned_label mode measureText minSpacing
                (maxWidth measureText minSpacing pairs)
                (spaceUnit measureText) p).
Proof.
  intros Hok. destruct mode.
  - eexists. split; [apply align_tab|]. split; [apply length_map|].
    intros i p Hp. now apply map_nth_error.
  - destruct Hok as [Hm|[->|Hsu]]; [discriminate| |].
    + exists []. split; [apply align_nil|]. split; [reflexivity|].
      now intros [|i].
    + eexists. split; [now apply align_space_padded|].
      split; [apply length_map|].
      intros i p Hp. now apply map_nth_error.
Qed.

Lemma C6_length_and_order_witness :
  exists out : list string,
    align [("Foo", "Bar#01"); ("Foobar", "B")] 2 SpacePadded len = inr out /\
    List.length out = List.length [("Foo", "Bar#01"); ("Foobar", "B")] /\
    forall (i : nat) (p : LabeledPair),
      nth_error [("Foo", "Bar#01"); ("Foobar", "B")] i = Some p ->
      nth_error out i
      = Some (aligned_label SpacePadded len 2
                (maxWidth len 2 [("Foo", "Bar#01"); ("Foobar", "B")])
                (spaceUnit len) p).
Proof.
  apply (C6_length_and_order
           [("Foo", "Bar#01"); ("Foobar", "B")] 2 SpacePadded len).
  right. right. vm_compute. discriminate.
Defined.

(** ** C7 *)

Lemma spaceUnit_len : spaceUnit len = 1.
Proof. reflexivity. Qed.

Lemma pair_width_len (ms : Z) (p : LabeledPair) :
  pair_width len ms p = len (fst p) + Z.max 0 ms + len (snd p).
Proof.
  unfold pair_width, natural_width, text_extent. cbn [fst].
  rewrite !len_app, len_spaces. lia.
Qed.

(** C7: SpacePadded monotonicity under measureText(s) = len(s).  If rows A
    and B of the input have right texts of the same length and A's left
    text is strictly shorter than B's, then the number of spaces computed
    for A is at least the number computed for B. *)
Theorem C7_space_padded_monotone
    (pairs : list LabeledPair) (minSpacing : Z) (i j : nat) (A B : LabeledPair) :
  nth_error pairs i = Some A ->
  nth_error pairs j = Some B ->
  (String.length (fst A) < String.length (fst B))%nat ->
  String.length (snd A) = String.length (snd B) ->
  exists (out : list string) (nA nB : Z),
    align pairs minSpacing SpacePadded len = inr out /\
    numspaces (text_extent len) minSpacing
      (maxWidth len minSpacing pairs) (pair_width len minSpacing A) = inr nA /\
    numspaces (text_extent len) minSpacing
      (maxWidth len minSpacing pairs) (pair_width len minSpacing B) = inr nB /\
    nth_error out i = Some (padded_label (fst A) nA (snd A)) /\
    nth_error out j = Some (padded_label (fst B) nB (snd B)) /\
    nA >= nB.
Proof.
  intros HA HB Hleft Hright.
  eexists _, _, _. split; [|split; [|split; [|split; [|split]]]].
  - apply align_space_padded. discriminate.
  - apply numspaces_ok. discriminate.
  - apply numspaces_ok. discriminate.
  - exact (map_nth_error
             (aligned_label SpacePadded len minSpacing
                (maxWidth len minSpacing pairs) (spaceUnit len)) i pairs HA).
  - exact (map_nth_error
             (aligned_label SpacePadded len minSpacing
                (maxWidth len minSpacing pairs) (spaceUnit len)) j pairs HB).
  - change (spacewidth (text_extent len)) with 1. rewrite !Z.div_1_r.
    rewrite !pair_width_len. unfold len. lia.
Qed.

Lemma C7_space_padded_monotone_witness :
  exists (out : list string) (nA nB : Z),
    align [("Foobar", "B#01"); ("Foo", "A#02")] 2 SpacePadded len = inr out /\
    numspaces (text_extent len) 2
      (maxWidth len 2 [("Foobar", "B#01"); ("Foo", "A#02")])
      (pair_width len 2 ("Foo", "A#02")) = inr nA /\
    numspaces (text_extent len) 2
      (maxWidth len 2 [("Foobar", "B#01"); ("Foo", "A#02")])
      (pair_width len 2 ("Foobar", "B#01")) = inr nB /\
    nth_error out 1 = Some (padded_label "Foo" nA "A#02") /\
    nth_error out 0 = Some (padded_label "Foobar" nB "B#01") /\
    nA >= nB.
Proof.
  apply (C7_space_padded_monotone
           [("Foobar", "B#01"); ("Foo", "A#02")] 2 1 0
           ("Foo", "A#02") ("Foobar", "B#01")).
  - reflexivity.
  - reflexivity.
  - simpl. lia.
  - reflexivity.
Defined.

(** ** C3 *)

Section Additive.

Variable m : string -> Z.
Hypothesis m_additive : additive m.

Lemma additive_empty : m "" = 0.
Proof. pose proof (m_additive "" "") as E. simpl in E. lia. Qed.

Lemma additive_repeat (n : nat) :
  m (Py.str_repeat " " n) = Z.of_nat n * m " ".
Proof.
  induction n as [|n IH].
  - simpl. rewrite additive_empty. lia.
  - change (Py.str_repeat " " (S n)) with (" " ++ Py.str_repeat " " n).
    rewrite m_additive, IH. lia.
Qed.

Lemma additive_spaces (n : Z) : m (Py.str_mul " " n) = Z.max 0 n * m " ".
Proof. unfold Py.str_mul. rewrite additive_repeat. f_equal. lia. Qed.

Lemma additive_spaceUnit : spaceUnit m = m " ".
Proof.
  unfold spaceUnit, spacewidth, text_extent. cbn [fst].
  change "  " with (" " ++ " "). rewrite m_additive. lia.
Qed.

Lemma additive_label (l r : string) (n : Z) :
  m (l ++ Py.str_mul " " n ++ r) = m l + Z.max 0 n * m " " + m r.
Proof. rewrite !m_additive, additive_spaces. lia. Qed.

End Additive.

(** C3, as stated, fails: with measureText(s) = len(s) and no minimum
    spacing, the rows ("a","xxxx") and ("a","y") come out as "axxxx" and
    "a   y".  The first row's left text with its padding is 1 wide, more
    than one spaceUnit short of maxWidth = 5, and the right column starts
    at offset 1 in one row and at offset 4 in the other. *)
Lemma C3_right_column_starts_differ :
  align [("a", "xxxx"); ("a", "y")] 0 SpacePadded len
  = inr ["a" ++ "" ++ "xxxx"; "a" ++ "   " ++ "y"] /\
  maxWidth len 0 [("a", "xxxx"); ("a", "y")] = 5 /\
  spaceUnit len = 1 /\
  ~ (len ("a" ++ "") >= maxWidth len 0 [("a", "xxxx"); ("a", "y")] - spaceUnit len) /\
  ~ (Z.abs (len ("a" ++ "   ") - len ("a" ++ "")) < spaceUnit len).
Proof.
  split; [|split; [|split; [|split]]].
  - vm_compute. reflexivity.
  - vm_compute. reflexivity.
  - vm_compute. reflexivity.
  - vm_compute. intros E. apply E. reflexivity.
  - vm_compute. discriminate.
Qed.

(** C3 (amended): it is the right edges that align.  For a measureText that
    adds up over concatenation and gives a space a positive width (such as
    len), every non-negative minSpacing and every row of the input: the
    row gets at least minSpacing spaces, the width of the whole output row
    left + padding + right is at most maxWidth and more than maxWidth -
    spaceUnit, and so the right text starts within one spaceUnit below
    maxWidth - width(right).  Right-column starts therefore agree to within
    one space only among rows whose right texts are equally wide. *)
Theorem C3_right_edges_align
    (measureText : string -> Z) (pairs : list LabeledPair) (minSpacing : Z)
    (i : nat) (p : LabeledPair) :
  additive measureText ->
  0 < measureText " " ->
  0 <= minSpacing ->
  nth_error pairs i = Some p ->
  exists (out : list string) (n : Z),
    align pairs minSpacing SpacePadded measureText = inr out /\
    nth_error out i = Some (fst p ++ Py.str_mul " " n ++ snd p) /\
    minSpacing <= n /\
    maxWidth measureText minSpacing pairs - spaceUnit measureText
    < measureText (fst p ++ Py.str_mul " " n ++ snd p)
    <= maxWidth measureText minSpacing pairs /\
    maxWidth measureText minSpacing pairs - measureText (snd p)
    - spaceUnit measureText
    < measureText (fst p ++ Py.str_mul " " n)
    <= maxWidth measureText minSpacing pairs - measureText (snd p).
Proof.
  intros Hadd Hpos Hms Hp.
  pose proof (additive_spaceUnit measureText Hadd) as Hsu.
  assert (Hne : pairs <> []) by (intros ->; now destruct i).
  destruct (maxWidth_is_maximum measureText minSpacing pairs Hne) as [_ Hub].
  specialize (Hub p (nth_error_In _ _ Hp)).
  set (mw := maxWidth measureText minSpacing pairs) in *.
  set (w := pair_width measureText minSpacing p) in *.
  set (c := measureText " ") in *.
  exists (map (aligned_label SpacePadded measureText minSpacing mw
                 (spaceUnit measureText)) pairs),
         (minSpacing + (mw - w) / spaceUnit measureText).
  assert (Hw : w = measureText (fst p) + minSpacing * c + measureText (snd p)).
  { unfold w, pair_width, natural_width, text_extent. cbn [fst].
    rewrite additive_label by exact Hadd. fold c. lia. }
  assert (Hq : 0 <= (mw - w) / c) by (apply Z.div_pos; lia).
  assert (Hlo : (mw - w) - c < c * ((mw - w) / c) <= mw - w).
  { pose proof (Z.mul_div_le (mw - w) c Hpos).
    pose proof (Z.mul_succ_div_gt (mw - w) c Hpos). lia. }
  split; [|split; [|split; [|split]]].
  - apply align_space_padded. lia.
  - exact (map_nth_error _ i pairs Hp).
  - rewrite Hsu. fold c. lia.
  - rewrite additive_label by exact Hadd. rewrite Hsu. fold c. nia.
  - rewrite Hadd, additive_spaces by exact Hadd. rewrite Hsu. fold c. nia.
Qed.

Lemma len_additive : additive len.
Proof. intros s t. apply len_app. Qed.

Lemma C3_right_edges_align_witness :
  exists (out : list string) (n : Z),
    align [("a", "xxxx"); ("a", "y")] 0 SpacePadded len = inr out /\
    nth_error out 1 = Some ("a" ++ Py.str_mul " " n ++ "y") /\
    0 <= n /\
    maxWidth len 0 [("a", "xxxx"); ("a", "y")] - spaceUnit len
    < len ("a" ++ Py.str_mul " " n ++ "y")
    <= maxWidth len 0 [("a", "xxxx"); ("a", "y")] /\
    maxWidth len 0 [("a", "xxxx"); ("a", "y")] - len "y" - spaceUnit len
    < len ("a" ++ Py.str_mul " " n)
    <= maxWidth len 0 [("a", "xxxx"); ("a", "y")] - len "y".
Proof.
  apply (C3_right_edges_align len [("a", "xxxx"); ("a", "y")] 0 1 ("a", "y")).
  - exact len_additive.
  - vm_compute. reflexivity.
  - lia.
  - reflexivity.
Defined.

(** ** C8 *)

(** C8, as stated, fails: when spaceUnit is zero the call raises
    ZeroDivisionError, and when spaceUnit is negative nothing is clamped
    to minSpacing: with minSpacing = 2 the first row below gets no spaces
    at all. *)
Lemma C8_degenerate_metrics_not_clamped :
  spaceUnit (fun _ => 5) = 0 /\
  align [("Foo", "Bar#01"); ("Foobar", "B")] 2 SpacePadded (fun _ => 5)
  = inl Py.ZeroDivisionError /\
  spaceUnit (fun s => - len s) = -1 /\
  align [("Foo", "Bar#01"); ("Foobar", "B")] 2 SpacePadded (fun s => - len s)
  = inr ["Foo" ++ "Bar#01"; "Foobar" ++ "  " ++ "B"].
Proof. split; [|split; [|split]]; vm_compute; reflexivity. Qed.

(** C8 (amended): for every measureText whose spaceUnit is negative, align
    in SpacePadded mode does not raise and returns one label per pair.
    Nothing is clamped to minSpacing: row i gets
    max(0, minSpacing + floor((maxWidth - w) / spaceUnit)) spaces, a number
    that never exceeds a non-negative minSpacing. *)
Theorem C8_negative_space_unit
    (pairs : list LabeledPair) (minSpacing : Z) (measureText : string -> Z) :
  spaceUnit measureText < 0 ->
  exists out : list string,
    align pairs minSpacing SpacePadded measureText = inr out /\
    List.length out = List.length pairs /\
    forall (i : nat) (p : LabeledPair),
      nth_error pairs i = Some p ->
      exists n : Z,
        numspaces (text_extent measureText) minSpacing
          (maxWidth measureText minSpacing pairs)
          (pair_width measureText minSpacing p) = inr n /\
        n <= minSpacing /\
        nth_error out i
        = Some (fst p ++ Py.str_mul " " (Z.max 0 n) ++ snd p).
Proof.
  intros Hsu.
  eexists. split; [apply align_space_padded; lia|].
  split; [apply length_map|].
  intros i p Hp.
  assert (Hne : pairs <> []) by (intros ->; now destruct i).
  destruct (maxWidth_is_maximum measureText minSpacing pairs Hne) as [_ Hub].
  specialize (Hub p (nth_error_In _ _ Hp)).
  eexists. split; [apply numspaces_ok; unfold spaceUnit in Hsu; lia|].
  split.
  - change (spacewidth (text_extent measureText)) with (spaceUnit measureText).
    assert ((maxWidth measureText minSpacing pairs
             - pair_width measureText minSpacing p)
            / spaceUnit measureText <= 0); [|lia].
    pose proof (Z.div_mod
                  (maxWidth measureText minSpacing pairs
                   - pair_width measureText minSpacing p)
                  (spaceUnit measureText)).
    pose proof (Z.mod_neg_bound
                  (maxWidth measureText minSpacing pairs
                   - pair_width measureText minSpacing p)
                  (spaceUnit measureText) Hsu).
    nia.
  - rewrite str_mul_max.
    exact (map_nth_error _ i pairs Hp).
Qed.

Lemma C8_negative_space_unit_witness :
  exists out : list string,
    align [("Foo", "Bar#01"); ("Foobar", "B")] 2 SpacePadded (fun s => - len s)
    = inr out /\
    List.length out = 2%nat /\
    forall (i : nat) (p : LabeledPair),
      nth_error [("Foo", "Bar#01"); ("Foobar", "B")] i = Some p ->
      exists n : Z,
        numspaces (text_extent (fun s => - len s)) 2
          (maxWidth (fun s => - len s) 2 [("Foo", "Bar#01"); ("Foobar", "B")])
          (pair_width (fun s => - len s) 2 p) = inr n /\
        n <= 2 /\
        nth_error out i
        = Some (fst p ++ Py.str_mul " " (Z.max 0 n) ++ snd p).
Proof.
  apply (C8_negative_space_unit
           [("Foo", "Bar#01"); ("Foobar", "B")] 2 (fun s => - len s)).
  vm_compute. reflexivity.
Defined.

(** ** C9 *)

Lemma nth_error_combine {A B : Type} (ls : list A) (rs : list B) (i : nat)
    (l : A) (r : B) :
  nth_error ls i = Some l -> nth_error rs i = Some r ->
  nth_error (combine ls rs) i = Some (l, r).
Proof.
  revert rs i; induction ls as [|a ls IH]; intros [|b rs] [|i]; simpl;
    try discriminate.
  - now intros [= ->] [= ->].
  - apply IH.
Qed.

Lemma relabel_frame (f : string * string -> string)
    (items : list Wx.MenuItem) (ls rs : list string) :
  let items' := relabel items (map f (combine ls rs)) in
  List.length items' = List.length items /\
  (forall i item l r,
      nth_error items i = Some item ->
      nth_error ls i = Some l ->
      nth_error rs i = Some r ->
      nth_error items' i = Some (Wx.SetItemLabel (f (l, r)) item)) /\
  (forall i, (reach items ls rs <= i)%nat ->
             nth_error items' i = nth_error items i).
Proof.
  cbv zeta. split; [apply relabel_length|]. split.
  - intros i item l r Hi Hl Hr. apply relabel_within; [assumption|].
    apply map_nth_error with (f := f). now apply nth_error_combine.
  - intros i Hi. unfold reach in Hi.
    destruct (Nat.le_gt_cases (List.length items) i) as [Hlen|Hlen].
    + transitivity (@None Wx.MenuItem).
      * apply nth_error_None. now rewrite relabel_length.
      * symmetry. now apply nth_error_None.
    + apply relabel_beyond. rewrite length_map, length_combine. lia.
Qed.

(** C9, as stated, fails: away from Windows, when [zip] finds no pair of
    texts at all the call raises ValueError, from the maximum of an empty
    list of widths. *)
Lemma C9_no_texts_raises :
  align_twosided_items "__WXGTK__" (text_extent len) 8
    [Wx.mkMenuItem 0 "filler"; Wx.mkMenuItem 1 "filler"] ["a"] []
  = ([Wx.mkMenuItem 0 "filler"; Wx.mkMenuItem 1 "filler"], Some Py.ValueError).
Proof. vm_compute. reflexivity. Qed.

(** C9 (amended): on Windows, or when neither text list is empty and the
    space width is not zero, a call with text lists of any lengths raises
    nothing and sets the labels of the first
    min(len(items), len(left_texts), len(right_texts)) items only: each of
    these gets the label computed from its own two texts, and every item
    from that index on is left as it was. *)
Theorem C9_truncation_frame
    (Platform : string) (GetTextExtent : string -> Z * Z) (min_spacing : Z)
    (items : list Wx.MenuItem) (left_texts right_texts : list string) :
  Platform = Wx.WXMSW \/
  (left_texts <> [] /\ right_texts <> [] /\ spacewidth GetTextExtent <> 0) ->
  exists items' : list Wx.MenuItem,
    align_twosided_items Platform GetTextExtent min_spacing items
      left_texts right_texts = (items', None) /\
    List.length items' = List.length items /\
    (forall (i : nat) (item : Wx.MenuItem) (ltext rtext : string),
        nth_error items i = Some item ->
        nth_error left_texts i = Some ltext ->
        nth_error right_texts i = Some rtext ->
        nth_error items' i
        = Some (Wx.SetItemLabel
                  (item_label Platform GetTextExtent min_spacing
                     left_texts right_texts ltext rtext) item)) /\
    (forall i : nat,
        (reach items left_texts right_texts <= i)%nat ->
        nth_error items' i = nth_error items i).
Proof.
  intros Hok.
  destruct (String.eqb_spec Platform Wx.WXMSW) as [HP|HP].
  - eexists. split; [now apply align_msw|].
    unfold tab_labels, item_label.
    rewrite (proj2 (String.eqb_eq _ _) HP).
    apply (relabel_frame (fun p => tab_label (fst p) (snd p))).
  - destruct Hok as [HP'|(Hl & Hr & Hsw)]; [contradiction|].
    destruct items as [|it items].
    + exists []. split; [reflexivity|]. split; [reflexivity|].
      split; [intros [|i]; discriminate|reflexivity].
    + destruct (align_padded Platform GetTextExtent min_spacing
                  (it :: items) left_texts right_texts)
        as (mw & Hmax & Heq); auto; try discriminate.
      eexists. split; [exact Heq|].
      unfold padded_labels, item_label.
      rewrite (proj2 (String.eqb_neq _ _) HP), Hmax.
      apply (relabel_frame
               (fun p => padded_label (fst p)
                           (min_spacing
                            + (mw - natural_width GetTextExtent min_spacing
                                      (fst p) (snd p))
                              / spacewidth GetTextExtent)
                           (snd p))).
Qed.

Lemma C9_truncation_frame_witness :
  exists items' : list Wx.MenuItem,
    align_twosided_items "__WXGTK__" (text_extent len) 2 (filler_items 3)
      ["a"; "b"] ["x"] = (items', None) /\
    List.length items' = List.length (filler_items 3) /\
    (forall (i : nat) (item : Wx.MenuItem) (ltext rtext : string),
        nth_error (filler_items 3) i = Some item ->
        nth_error ["a"; "b"] i = Some ltext ->
        nth_error ["x"] i = Some rtext ->
        nth_error items' i
        = Some (Wx.SetItemLabel
                  (item_label "__WXGTK__" (text_extent len) 2
                     ["a"; "b"] ["x"] ltext rtext) item)) /\
    (forall i : nat,
        (reach (filler_items 3) ["a"; "b"] ["x"] <= i)%nat ->
        nth_error items' i = nth_error (filler_items 3) i).
Proof.
  apply (C9_truncation_frame "__WXGTK__" (text_extent len) 2
           (filler_items 3) ["a"; "b"] ["x"]).
  right. split; [discriminate|]. split; [discriminate|].
  vm_compute. discriminate.
Defined.

(** ** C10 *)

Section WidgetFacts.

Context {C : Type} `{ComboBox C}.

Lemma update_annotation_frame (w : NameSubcriberComboBox C) :
  exists (label : string) (r : Py.exn + unit),
    update_annotation w = (set_Label label w, r).
Proof.
  unfold update_annotation, bind, modify, gets, lift, ret.
  destruct (Py.truthy (orig_choices (set_Label "" w)));
    [|eexists _, _; reflexivity].
  destruct (Py.index (orig_choices (set_Label "" w))
              (cb_Selection (combo_dlg (set_Label "" w))))
    as [e|ch]; [eexists _, _; reflexivity|].
  destruct (Py.str_truthy (snd (fst ch))); eexists _, _; reflexivity.
Qed.



End WidgetFacts.







(** * Further properties of the code *)

(** ** align_twosided_items: how a call ends *)

Section AlignOutcome.

Variable Platform : string.
Variable GetTextExtent : string -> Z * Z.
Variable min_spacing : Z.

Lemma align_cases (items : list Wx.MenuItem) (ls rs : list string) :
  let r := align_twosided_items Platform GetTextExtent min_spacing items ls rs in
  (items = [] /\ r = ([], None)) \/
  (items <> [] /\ Platform = Wx.WXMSW /\
   r = (relabel items (tab_labels ls rs), None)) \/
  (items <> [] /\ Platform <> Wx.WXMSW /\ (ls = [] \/ rs = []) /\
   r = (items, Some Py.ValueError)) \/
  (items <> [] /\ Platform <> Wx.WXMSW /\ ls <> [] /\ rs <> [] /\
   spacewidth GetTextExtent = 0 /\ r = (items, Some Py.ZeroDivisionError)) \/
  (items <> [] /\ Platform <> Wx.WXMSW /\ ls <> [] /\ rs <> [] /\
   spacewidth GetTextExtent <> 0 /\
   exists maxwidth,
     Py.max (widths_of GetTextExtent min_spacing ls rs) = inr maxwidth /\
     r = (relabel items
            (padded_labels GetTextExtent min_spacing maxwidth ls rs), None)).
Proof.
  cbv zeta.
  destruct items as [|it items]; [left; split; reflexivity|].
  right.
  assert (Hi : it :: items <> []) by discriminate.
  destruct (String.eqb_spec Platform Wx.WXMSW) as [HP|HP].
  { left. split; [assumption|]. split; [assumption|]. now apply align_msw. }
  right.
  destruct (list_eq_dec string_dec ls []) as [Hl|Hl].
  { left. repeat split; auto. apply align_no_texts; auto. }
  destruct (list_eq_dec string_dec rs []) as [Hr|Hr].
  { left. repeat split; auto. apply align_no_texts; auto. }
  right.
  destruct (Z.eq_dec (spacewidth GetTextExtent) 0) as [Hsw|Hsw].
  { left. repeat split; auto. apply align_zero_spacewidth; auto. }
  right. repeat split; auto. apply align_padded; auto.
Qed.

Lemma relabel_idempotent (items : list Wx.MenuItem) (labels : list string) :
  relabel (relabel items labels) labels = relabel items labels.
Proof.
  revert labels; induction items as [|it items IH]; intros [|l labels];
    simpl; auto.
  now rewrite IH.
Qed.

Lemma relabel_nonempty (items : list Wx.MenuItem) (labels : list string) :
  items <> [] -> relabel items labels <> [].
Proof. destruct items, labels; simpl; congruence. Qed.

End AlignOutcome.

(** X1: the exceptions of align_twosided_items.  A call raises ValueError
    exactly when there are items, the platform is not Windows, and one of
    the two text lists is empty; it raises ZeroDivisionError exactly when
    there are items, the platform is not Windows, neither text list is
    empty and the space width is zero; it raises nothing else. *)
Theorem X1_align_exceptions
    (Platform : string) (GetTextExtent : string -> Z * Z) (min_spacing : Z)
    (items : list Wx.MenuItem) (left_texts right_texts : list string) :
  let raised :=
    snd (align_twosided_items Platform GetTextExtent min_spacing items
           left_texts right_texts) in
  (raised = Some Py.ValueError <->
   items <> [] /\ Platform <> Wx.WXMSW /\
   (left_texts = [] \/ right_texts = [])) /\
  (raised = Some Py.ZeroDivisionError <->
   items <> [] /\ Platform <> Wx.WXMSW /\
   left_texts <> [] /\ right_texts <> [] /\ spacewidth GetTextExtent = 0) /\
  raised <> Some Py.IndexError.
Proof.
  cbv zeta.
  destruct (align_cases Platform GetTextExtent min_spacing items
              left_texts right_texts)
    as [(Hi & ->)|[(Hi & HP & ->)|[(Hi & HP & Hn & ->)
       |[(Hi & HP & Hl & Hr & Hsw & ->)|(Hi & HP & Hl & Hr & Hsw & mw & _ & ->)]]]];
    cbn [snd]; (split; [|split]); try discriminate;
    split; try discriminate; try tauto; intros; try tauto.
  all: destruct Hn; tauto.
Qed.

(** X2: a call that raises has changed no label: the items are exactly
    as they were before the call. *)
Theorem X2_align_raise_keeps_items
    (Platform : string) (GetTextExtent : string -> Z * Z) (min_spacing : Z)
    (items : list Wx.MenuItem) (left_texts right_texts : list string)
    (e : Py.exn) :
  snd (align_twosided_items Platform GetTextExtent min_spacing items
         left_texts right_texts) = Some e ->
  fst (align_twosided_items Platform GetTextExtent min_spacing items
         left_texts right_texts) = items.
Proof.
  destruct (align_cases Platform GetTextExtent min_spacing items
              left_texts right_texts)
    as [(Hi & ->)|[(Hi & HP & ->)|[(Hi & HP & Hn & ->)
       |[(Hi & HP & Hl & Hr & Hsw & ->)|(Hi & HP & Hl & Hr & Hsw & mw & _ & ->)]]]];
    cbn [fst snd]; try discriminate; reflexivity.
Qed.

Lemma X2_align_raise_keeps_items_witness :
  fst (align_twosided_items "__WXGTK__" (text_extent (fun _ => 7)) 8
         (filler_items 2) ["a"; "b"] ["x"; "y"]) = filler_items 2.
Proof.
  apply (X2_align_raise_keeps_items "__WXGTK__" (text_extent (fun _ => 7)) 8
           (filler_items 2) ["a"; "b"] ["x"; "y"] Py.ZeroDivisionError).
  vm_compute. reflexivity.
Defined.

Lemma relabel_same_ids (items1 items2 : list Wx.MenuItem)
    (labels : list string) (i : nat) :
  map Wx.Id items1 = map Wx.Id items2 ->
  (i < List.length labels)%nat ->
  nth_error (relabel items1 labels) i = nth_error (relabel items2 labels) i.
Proof.
  revert items2 labels i; induction items1 as [|a items1 IH];
    intros [|b items2] [|l labels] i; simpl; try discriminate; try lia; auto.
  intros [= Hid Hids] Hi. destruct i as [|i]; simpl.
  - unfold Wx.SetItemLabel. now rewrite Hid.
  - apply IH; [assumption|lia].
Qed.

Lemma same_ids_nil (items1 items2 : list Wx.MenuItem) :
  map Wx.Id items1 = map Wx.Id items2 -> items1 <> [] -> items2 <> [].
Proof. destruct items1, items2; simpl; congruence. Qed.

(** X3: the labels come from the texts alone.  Aligning is idempotent:
    calling align_twosided_items again, on the items the first call left
    and with the same texts, ends the same way and leaves the items as the
    first call left them.  And what the items were labelled before does
    not matter: two calls with the same texts, on lists of items that have
    the same identifiers but any labels, end the same way and, when they
    return, leave the same item at every position they reach. *)
Theorem X3_align_idempotent
    (Platform : string) (GetTextExtent : string -> Z * Z) (min_spacing : Z)
    (left_texts right_texts : list string) :
  let call items :=
    align_twosided_items Platform GetTextExtent min_spacing items
      left_texts right_texts in
  (forall items : list Wx.MenuItem, call (fst (call items)) = call items) /\
  (forall items1 items2 : list Wx.MenuItem,
      map Wx.Id items1 = map Wx.Id items2 ->
      snd (call items1) = snd (call items2) /\
      (snd (call items1) = None ->
       forall i : nat,
         (i < reach items1 left_texts right_texts)%nat ->
         nth_error (fst (call items1)) i = nth_error (fst (call items2)) i)).
Proof.
  cbv zeta. split.
  - intros items.
    destruct (align_cases Platform GetTextExtent min_spacing items
                left_texts right_texts)
      as [(Hi & E)|[(Hi & HP & E)|[(Hi & HP & Hn & E)
         |[(Hi & HP & Hl & Hr & Hsw & E)
          |(Hi & HP & Hl & Hr & Hsw & mw & Hmw & E)]]]];
      rewrite E; cbn [fst]; try (rewrite <- E; reflexivity).
    + subst items. reflexivity.
    + rewrite align_msw by assumption. now rewrite relabel_idempotent.
    + destruct (align_padded Platform GetTextExtent min_spacing
                  (relabel items
                     (padded_labels GetTextExtent min_spacing mw
                        left_texts right_texts))
                  left_texts right_texts)
        as (mw' & Hmw' & ->); auto using relabel_nonempty.
      rewrite Hmw in Hmw'. injection Hmw' as <-.
      now rewrite relabel_idempotent.
  - intros items1 items2 Hids. split.
    + rewrite !align_exception.
      now destruct items1, items2; try discriminate.
    + intros Hnone i Hi.
      assert (Hne1 : items1 <> [])
        by (intros ->; unfold reach in Hi; simpl in Hi; lia).
      pose proof (same_ids_nil _ _ Hids Hne1) as Hne2.
      assert (Hlen : forall f : string * string -> string,
                 (i < List.length
                        (map f (combine left_texts right_texts)))%nat)
        by (intros f; rewrite length_map, length_combine;
            unfold reach in Hi; lia).
      destruct (align_cases Platform GetTextExtent min_spacing items1
                  left_texts right_texts)
        as [(H1 & E)|[(H1 & HP & E)|[(H1 & HP & Hn & E)
           |[(H1 & HP & Hl & Hr & Hsw & E)
            |(H1 & HP & Hl & Hr & Hsw & mw & Hmw & E)]]]];
        rewrite E in Hnone |- *; cbn [fst snd] in *;
        try discriminate; try contradiction.
      * rewrite align_msw by assumption. cbn [fst].
        apply relabel_same_ids; [assumption|apply Hlen].
      * destruct (align_padded Platform GetTextExtent min_spacing items2
                    left_texts right_texts)
          as (mw' & Hmw' & ->); auto.
        rewrite Hmw in Hmw'. injection Hmw' as <-. cbn [fst].
        apply relabel_same_ids; [assumption|apply Hlen].
Qed.

Lemma X3_align_idempotent_witness :
  let call items :=
    align_twosided_items "__WXGTK__" (text_extent len) 2 items
      ["Foo"; "Foobar"] ["Bar#01"; "B"] in
  let items1 := [Wx.mkMenuItem 100 "filler"; Wx.mkMenuItem 101 "filler"] in
  let items2 := [Wx.mkMenuItem 100 "old"; Wx.mkMenuItem 101 "older"] in
  snd (call items1) = snd (call items2) /\
  (snd (call items1) = None ->
   forall i : nat,
     (i < reach items1 ["Foo"; "Foobar"] ["Bar#01"; "B"])%nat ->
     nth_error (fst (call items1)) i = nth_error (fst (call items2)) i).
Proof.
  intros call items1 items2.
  apply (proj2 (X3_align_idempotent "__WXGTK__" (text_extent len) 2
                  ["Foo"; "Foobar"] ["Bar#01"; "B"]) items1 items2).
  reflexivity.
Defined.

(** ** The space-padded rows *)

(** X4: with a positive space width, every row gets at least min_spacing
    spaces between its two texts, and a widest row gets exactly
    min_spacing of them (none, when min_spacing is negative). *)
Theorem X4_min_spacing_is_kept
    (pairs : list LabeledPair) (minSpacing : Z) (measureText : string -> Z) :
  0 < spaceUnit measureText ->
  exists out : list string,
    align pairs minSpacing SpacePadded measureText = inr out /\
    (forall (i : nat) (p : LabeledPair),
        nth_error pairs i = Some p ->
        exists n : Z,
          minSpacing <= n /\
          nth_error out i = Some (fst p ++ Py.str_mul " " n ++ snd p)) /\
    (pairs <> [] ->
     exists (i : nat) (p : LabeledPair),
       nth_error pairs i = Some p /\
       pair_width measureText minSpacing p
       = maxWidth measureText minSpacing pairs /\
       nth_error out i
       = Some (fst p ++ Py.str_mul " " minSpacing ++ snd p)).
Proof.
  intros Hsu.
  eexists. split; [apply align_space_padded; lia|]. split.
  - intros i p Hp.
    assert (Hne : pairs <> []) by (intros ->; now destruct i).
    destruct (maxWidth_is_maximum measureText minSpacing pairs Hne) as [_ Hub].
    specialize (Hub p (nth_error_In _ _ Hp)).
    eexists. split; [|exact (map_nth_error _ i pairs Hp)].
    assert (0 <= (maxWidth measureText minSpacing pairs
                  - pair_width measureText minSpacing p)
                 / spaceUnit measureText) by (apply Z.div_pos; lia).
    lia.
  - intros Hne.
    destruct (maxWidth_is_maximum measureText minSpacing pairs Hne) as [Hin _].
    apply in_map_iff in Hin as (p & Hw & Hp).
    apply In_nth_error in Hp as (i & Hi).
    exists i, p. split; [assumption|]. split; [assumption|].
    rewrite (map_nth_error _ i pairs Hi). unfold aligned_label.
    now rewrite Hw, Z.sub_diag, Z.div_0_l, Z.add_0_r by lia.
Qed.

Lemma X4_min_spacing_is_kept_witness :
  exists out : list string,
    align [("Foo", "Bar#01"); ("Foobar", "B")] 2 SpacePadded len = inr out /\
    (forall (i : nat) (p : LabeledPair),
        nth_error [("Foo", "Bar#01"); ("Foobar", "B")] i = Some p ->
        exists n : Z,
          2 <= n /\
          nth_error out i = Some (fst p ++ Py.str_mul " " n ++ snd p)) /\
    ([("Foo", "Bar#01"); ("Foobar", "B")] <> [] ->
     exists (i : nat) (p : LabeledPair),
       nth_error [("Foo", "Bar#01"); ("Foobar", "B")] i = Some p /\
       pair_width len 2 p
       = maxWidth len 2 [("Foo", "Bar#01"); ("Foobar", "B")] /\
       nth_error out i = Some (fst p ++ Py.str_mul " " 2 ++ snd p)).
Proof.
  apply (X4_min_spacing_is_kept [("Foo", "Bar#01"); ("Foobar", "B")] 2 len).
  vm_compute. reflexivity.
Defined.

Lemma fold_left_max_affine (k c : Z) (xs : list Z) (a : Z) :
  0 < k ->
  fold_left Z.max (map (fun x => k * x + c) xs) (k * a + c)
  = k * fold_left Z.max xs a + c.
Proof.
  intros Hk. revert a; induction xs as [|x xs IH]; intros a; simpl;
    [reflexivity|].
  rewrite <- IH. f_equal.
  destruct (Z.max_spec a x) as [[? ->]|[? ->]]; nia.
Qed.

Lemma maxWidth_affine (k c : Z) (m : string -> Z) (ms : Z)
    (pairs : list LabeledPair) :
  0 < k -> pairs <> [] ->
  maxWidth (fun s => k * m s + c) ms pairs = k * maxWidth m ms pairs + c.
Proof.
  intros Hk Hne. destruct pairs as [|p pairs]; [congruence|].
  unfold maxWidth. simpl.
  rewrite <- fold_left_max_affine by assumption.
  f_equal. now rewrite map_map.
Qed.

(** X5: the labels do not depend on the unit or the origin of the
    measure.  Replacing measureText by k * measureText + c, with k
    positive, gives the same result in either mode: a fixed amount that
    the toolkit adds to every string, and a zoom factor, cancel out. *)
Theorem X5_align_affine_invariant
    (pairs : list LabeledPair) (minSpacing : Z) (mode : AlignmentMode)
    (measureText : string -> Z) (k c : Z) :
  0 < k ->
  align pairs minSpacing mode (fun s => k * measureText s + c)
  = align pairs minSpacing mode measureText.
Proof.
  intros Hk. destruct mode; [now rewrite !align_tab|].
  destruct pairs as [|p0 pairs]; [reflexivity|].
  set (ps := p0 :: pairs).
  assert (Hne : ps <> []) by discriminate.
  assert (Hsu : spaceUnit (fun s => k * measureText s + c)
                = k * spaceUnit measureText).
  { unfold spaceUnit, spacewidth, text_extent. cbn [fst]. lia. }
  destruct (Z.eq_dec (spaceUnit measureText) 0) as [Hz|Hnz].
  - rewrite !align_space_zero; auto. rewrite Hsu, Hz. lia.
  - rewrite !align_space_padded by (rewrite ?Hsu; nia).
    f_equal. apply map_ext. intros p. unfold aligned_label.
    rewrite maxWidth_affine, Hsu by assumption.
    replace (pair_width (fun s => k * measureText s + c) minSpacing p)
      with (k * pair_width measureText minSpacing p + c) by reflexivity.
    replace (k * maxWidth measureText minSpacing ps + c
             - (k * pair_width measureText minSpacing p + c))
      with (k * (maxWidth measureText minSpacing ps
                 - pair_width measureText minSpacing p)) by lia.
    rewrite Z.div_mul_cancel_l by lia. reflexivity.
Qed.

Lemma X5_align_affine_invariant_witness :
  align [("Foo", "Bar#01"); ("Foobar", "B")] 2 SpacePadded
    (fun s => 7 * len s + 12)
  = align [("Foo", "Bar#01"); ("Foobar", "B")] 2 SpacePadded len.
Proof.
  apply (X5_align_affine_invariant
           [("Foo", "Bar#01"); ("Foobar", "B")] 2 SpacePadded len 7 12).
  lia.
Defined.

(** X6: in a fixed-width font the rows come out equally long.  With
    measureText(s) = len(s) and a non-negative minSpacing, every label
    that align returns in SpacePadded mode has length maxWidth. *)
Theorem X6_fixed_width_rows_equally_long
    (pairs : list LabeledPair) (minSpacing : Z) :
  0 <= minSpacing ->
  exists out : list string,
    align pairs minSpacing SpacePadded len = inr out /\
    forall label : string,
      In label out -> len label = maxWidth len minSpacing pairs.
Proof.
  intros Hms.
  eexists. split; [apply align_space_padded; discriminate|].
  intros label Hin. apply in_map_iff in Hin as (p & <- & Hp).
  assert (Hne : pairs <> []) by (intros ->; contradiction).
  destruct (maxWidth_is_maximum len minSpacing pairs Hne) as [_ Hub].
  specialize (Hub p Hp). unfold aligned_label.
  rewrite spaceUnit_len, Z.div_1_r.
  rewrite pair_width_len in *.
  rewrite !len_app, len_spaces. lia.
Qed.

Lemma X6_fixed_width_rows_equally_long_witness :
  exists out : list string,
    align [("Foo", "Bar#01"); ("Foobar", "B")] 2 SpacePadded len = inr out /\
    forall label : string,
      In label out ->
      len label = maxWidth len 2 [("Foo", "Bar#01"); ("Foobar", "B")].
Proof.
  apply (X6_fixed_width_rows_equally_long
           [("Foo", "Bar#01"); ("Foobar", "B")] 2).
  lia.
Defined.

(** ** update_annotation *)

Lemma index_in_range {A : Type} (xs : list A) (i : Z) :
  - Z.of_nat (List.length xs) <= i < Z.of_nat (List.length xs) ->
  exists x : A, Py.index xs i = inr x.
Proof.
  intros Hi. unfold Py.index.
  set (n := Z.of_nat (List.length xs)) in *.
  set (j := if i <? 0 then i + n else i).
  assert (Hj : 0 <= j < n) by (unfold j; destruct (Z.ltb_spec i 0); lia).
  replace ((0 <=? j) && (j <? n)) with true
    by (symmetry; apply andb_true_iff; split;
        [apply Z.leb_le|apply Z.ltb_lt]; lia).
  destruct (nth_error xs (Z.to_nat j)) as [x|] eqn:E; [now exists x|].
  apply nth_error_None in E. lia.
Qed.

Lemma index_out_of_range {A : Type} (xs : list A) (i : Z) :
  i < - Z.of_nat (List.length xs) \/ Z.of_nat (List.length xs) <= i ->
  Py.index xs i = inl Py.IndexError.
Proof.
  intros Hi. unfold Py.index.
  set (n := Z.of_nat (List.length xs)) in *.
  set (j := if i <? 0 then i + n else i).
  assert (Hj : j < 0 \/ n <= j) by (unfold j; destruct (Z.ltb_spec i 0); lia).
  replace ((0 <=? j) && (j <? n)) with false; [reflexivity|].
  symmetry. apply andb_false_iff.
  destruct Hj; [left; apply Z.leb_gt|right; apply Z.ltb_ge]; lia.
Qed.

Lemma index_nonneg {A : Type} (xs : list A) (i : Z) (x : A) :
  0 <= i -> nth_error xs (Z.to_nat i) = Some x -> Py.index xs i = inr x.
Proof.
  intros Hi Hx. unfold Py.index.
  assert (Hlt : (Z.to_nat i < List.length xs)%nat)
    by (apply nth_error_Some; congruence).
  destruct (Z.ltb_spec i 0); [lia|].
  replace ((0 <=? i) && (i <? Z.of_nat (List.length xs))) with true
    by (symmetry; apply andb_true_iff; split;
        [apply Z.leb_le|apply Z.ltb_lt]; lia).
  now rewrite Hx.
Qed.

Lemma index_last {A : Type} (xs : list A) (x : A) :
  Py.index (xs ++ [x])%list (-1) = inr x.
Proof.
  unfold Py.index. rewrite length_app. cbn [List.length].
  change (-1 <? 0) with true. cbv iota.
  replace (-1 + Z.of_nat (List.length xs + 1)) with (Z.of_nat (List.length xs))
    by lia.
  replace ((0 <=? Z.of_nat (List.length xs))
           && (Z.of_nat (List.length xs) <? Z.of_nat (List.length xs + 1)))
    with true
    by (symmetry; apply andb_true_iff; split;
        [apply Z.leb_le|apply Z.ltb_lt]; lia).
  rewrite Nat2Z.id, nth_error_app2, Nat.sub_diag by lia. reflexivity.
Qed.

Lemma index_raises {A : Type} (xs : list A) (i : Z) (e : Py.exn) :
  Py.index xs i = inl e ->
  e = Py.IndexError /\
  (i < - Z.of_nat (List.length xs) \/ Z.of_nat (List.length xs) <= i).
Proof.
  intros He.
  destruct (Z_lt_dec i (- Z.of_nat (List.length xs))) as [Hlo|Hlo].
  { rewrite index_out_of_range in He by lia. injection He as <-. auto. }
  destruct (Z_le_dec (Z.of_nat (List.length xs)) i) as [Hhi|Hhi].
  { rewrite index_out_of_range in He by lia. injection He as <-. auto. }
  destruct (index_in_range xs i) as [x Hx]; [lia|congruence].
Qed.

Section AnnotationFacts.

Context {C : Type} `{ComboBox C}.

(** The annotation of a choice. *)
Lemma update_annotation_spec (w : NameSubcriberComboBox C) :
  update_annotation w
  = if Py.truthy (orig_choices w) then
      match Py.index (orig_choices w) (cb_Selection (combo_dlg w)) with
      | inl e => (set_Label "" w, inl e)
      | inr ch =>
          (set_Label
             (if Py.str_truthy (snd (fst ch))
              then from_label (snd (fst ch)) (snd ch) else "") w,
           inr tt)
      end
    else (set_Label "" w, inr tt).
Proof.
  cbv beta iota delta [update_annotation bind modify gets lift ret].
  change (orig_choices (set_Label "" w)) with (orig_choices w).
  destruct (Py.truthy (orig_choices w)); [|reflexivity].
  cbv beta iota.
  change (combo_dlg (set_Label "" w)) with (combo_dlg w).
  destruct (Py.index (orig_choices w) (cb_Selection (combo_dlg w)))
    as [e|ch]; [reflexivity|].
  destruct (Py.str_truthy (snd (fst ch))); reflexivity.
Qed.

Lemma update_annotation_label_irrelevant
    (w : NameSubcriberComboBox C) (label : string) :
  update_annotation (set_Label label w) = update_annotation w.
Proof.
  rewrite !update_annotation_spec.
  change (orig_choices (set_Label label w)) with (orig_choices w).
  change (combo_dlg (set_Label label w)) with (combo_dlg w).
  destruct (Py.truthy (orig_choices w)); [|reflexivity].
  destruct (Py.index (orig_choices w) (cb_Selection (combo_dlg w)));
    reflexivity.
Qed.

Lemma update_annotation_twice (w : NameSubcriberComboBox C) :
  update_annotation (fst (update_annotation w)) = update_annotation w.
Proof.
  destruct (update_annotation_frame w) as (label & r & E).
  rewrite E. cbn [fst]. rewrite update_annotation_label_irrelevant. exact E.
Qed.

Lemma SetItems_as_update (choices : list choice) (w : NameSubcriberComboBox C) :
  SetItems choices w
  = update_annotation
      (mkWidget choices (IDs w)
         (cb_set_Value (cb_Value (combo_dlg w))
            (cb_set_Items (map choice_name choices) (combo_dlg w)))
         (annotation_Label w)).
Proof.
  cbv beta iota delta [SetItems SetValue GetValue Refresh bind modify gets ret].
  match goal with
  | |- context [update_annotation ?w2] => set (w1 := w2)
  end.
  change (mkWidget choices (IDs w)
            (cb_set_Value (cb_Value (combo_dlg w))
               (cb_set_Items (map choice_name choices) (combo_dlg w)))
            (annotation_Label w)) with w1.
  pose proof (update_annotation_twice w1) as Htwice.
  destruct (update_annotation w1) as [w2 [e|[]]]; cbn [fst] in *;
    [reflexivity|].
  rewrite Htwice. reflexivity.
Qed.

End AnnotationFacts.

(** X7: the annotation follows the selection.  When the combo box's
    Selection is a valid non-negative index into the choices,
    update_annotation returns normally and leaves the label
    "(from <parent> #<num>)" of the selected choice, with the number
    zero-padded to two digits, or the empty label when that choice has no
    parent. *)
Theorem X7_annotation_of_selection
    (C : Type) (combo : ComboBox C) (w : NameSubcriberComboBox C)
    (name parent : string) (num : Z) :
  0 <= cb_Selection (combo_dlg w) ->
  nth_error (orig_choices w) (Z.to_nat (cb_Selection (combo_dlg w)))
  = Some (name, parent, num) ->
  update_annotation w
  = (set_Label
       (if Py.str_truthy parent
        then "(from " ++ parent ++ " #" ++ Py.fmt_02d num ++ ")" else "") w,
     inr tt).
Proof.
  intros Hsel Hch. rewrite update_annotation_spec.
  destruct (orig_choices w) as [|c cs] eqn:E.
  { now destruct (Z.to_nat (cb_Selection (combo_dlg w))). }
  cbn [Py.truthy]. rewrite (index_nonneg _ _ _ Hsel Hch). reflexivity.
Qed.

Lemma X7_annotation_of_selection_witness :
  update_annotation
    (mkWidget [("Nuclei", "IdentifyPrimaryObjects", 2); ("DNA", "", 1)] [100; 101]
       (PlainCombo.mk ["Nuclei"; "DNA"] "Nuclei" 0) "")
  = (set_Label
       (if Py.str_truthy "IdentifyPrimaryObjects"
        then "(from " ++ "IdentifyPrimaryObjects" ++ " #" ++ Py.fmt_02d 2 ++ ")"
        else "")
       (mkWidget [("Nuclei", "IdentifyPrimaryObjects", 2); ("DNA", "", 1)]
          [100; 101] (PlainCombo.mk ["Nuclei"; "DNA"] "Nuclei" 0) ""),
     inr tt).
Proof.
  apply (X7_annotation_of_selection PlainCombo.t PlainCombo.combo
           (mkWidget [("Nuclei", "IdentifyPrimaryObjects", 2); ("DNA", "", 1)]
              [100; 101] (PlainCombo.mk ["Nuclei"; "DNA"] "Nuclei" 0) "")
           "Nuclei" "IdentifyPrimaryObjects" 2).
  - vm_compute. discriminate.
  - reflexivity.
Defined.

(** X8: no selection annotates the last choice.  When Selection is -1
    (nothing selected) and there are choices, the list index counts from
    the end: update_annotation returns normally and the label is that of
    the last choice. *)
Theorem X8_no_selection_annotates_last
    (C : Type) (combo : ComboBox C) (w : NameSubcriberComboBox C)
    (choices : list choice) (name parent : string) (num : Z) :
  cb_Selection (combo_dlg w) = -1 ->
  orig_choices w = (choices ++ [(name, parent, num)])%list ->
  update_annotation w
  = (set_Label
       (if Py.str_truthy parent
        then "(from " ++ parent ++ " #" ++ Py.fmt_02d num ++ ")" else "") w,
     inr tt).
Proof.
  intros Hsel Hch. rewrite update_annotation_spec, Hsel, Hch, index_last.
  now destruct choices.
Qed.

Lemma X8_no_selection_annotates_last_witness :
  update_annotation
    (mkWidget [("DNA", "", 1); ("Nuclei", "IdentifyPrimaryObjects", 2)] [100; 101]
       (PlainCombo.mk ["DNA"; "Nuclei"] "" (-1)) "")
  = (set_Label
       (if Py.str_truthy "IdentifyPrimaryObjects"
        then "(from " ++ "IdentifyPrimaryObjects" ++ " #" ++ Py.fmt_02d 2 ++ ")"
        else "")
       (mkWidget [("DNA", "", 1); ("Nuclei", "IdentifyPrimaryObjects", 2)]
          [100; 101] (PlainCombo.mk ["DNA"; "Nuclei"] "" (-1)) ""),
     inr tt).
Proof.
  apply (X8_no_selection_annotates_last PlainCombo.t PlainCombo.combo
           (mkWidget [("DNA", "", 1); ("Nuclei", "IdentifyPrimaryObjects", 2)]
              [100; 101] (PlainCombo.mk ["DNA"; "Nuclei"] "" (-1)) "")
           [("DNA", "", 1)] "Nuclei" "IdentifyPrimaryObjects" 2).
  - reflexivity.
  - reflexivity.
Defined.

(** X9: when update_annotation raises.  It raises exactly when there are
    choices and Selection lies outside -len(choices) .. len(choices) - 1;
    the exception is then IndexError, and the label has already been
    cleared.  With no choices it never raises and the label is empty. *)
Theorem X9_update_annotation_raises
    (C : Type) (combo : ComboBox C) (w : NameSubcriberComboBox C) :
  let n := Z.of_nat (List.length (orig_choices w)) in
  let selection := cb_Selection (combo_dlg w) in
  (outcome update_annotation w = inl Py.IndexError <->
   orig_choices w <> [] /\ (selection < - n \/ n <= selection)) /\
  (forall e : Py.exn,
      outcome update_annotation w = inl e ->
      e = Py.IndexError /\
      exec update_annotation w = set_Label "" w) /\
  (orig_choices w = [] ->
   update_annotation w = (set_Label "" w, inr tt)).
Proof.
  cbv zeta. unfold outcome, exec. rewrite update_annotation_spec.
  destruct (orig_choices w) as [|c cs] eqn:E; cbn [Py.truthy snd fst].
  { repeat split; try discriminate; intros; try tauto; try discriminate. }
  destruct (Py.index (c :: cs) (cb_Selection (combo_dlg w))) as [e|ch] eqn:Hi;
    cbn [snd fst].
  - apply index_raises in Hi as [-> Hout].
    split; [|split].
    + split; [intros _; split; [discriminate|exact Hout]|reflexivity].
    + intros e [= <-]. split; reflexivity.
    + discriminate.
  - split; [|split]; try discriminate.
    split; [discriminate|]. intros [_ Hout].
    rewrite index_out_of_range in Hi by exact Hout. discriminate.
Qed.

(** X10: update_annotation is idempotent: the label it leaves depends on
    the choices and the selection only, so running it a second time ends
    the same way and leaves the same widget. *)
Theorem X10_update_annotation_idempotent
    (C : Type) (combo : ComboBox C) (w : NameSubcriberComboBox C) :
  update_annotation (exec update_annotation w) = update_annotation w.
Proof. apply update_annotation_twice. Qed.

(** X11: SetItems amounts to three assignments and one update of the
    annotation.  It ends as update_annotation does on the widget whose
    choices are the new ones and whose combo box has had Items and then
    the old Value assigned; so it raises exactly when the new choices are
    not empty and the Selection the combo box then reports is out of
    their range, and what it raises is IndexError. *)
Theorem X11_SetItems_is_one_update
    (C : Type) (combo : ComboBox C) (w : NameSubcriberComboBox C)
    (choices : list choice) :
  let combo' :=
    cb_set_Value (cb_Value (combo_dlg w))
      (cb_set_Items (map choice_name choices) (combo_dlg w)) in
  let n := Z.of_nat (List.length choices) in
  SetItems choices w
  = update_annotation (mkWidget choices (IDs w) combo' (annotation_Label w)) /\
  (outcome (SetItems choices) w = inl Py.IndexError <->
   choices <> [] /\ (cb_Selection combo' < - n \/ n <= cb_Selection combo')) /\
  (forall e : Py.exn,
      outcome (SetItems choices) w = inl e -> e = Py.IndexError).
Proof.
  cbv zeta. split; [apply SetItems_as_update|].
  unfold outcome. rewrite SetItems_as_update, update_annotation_spec.
  cbn [orig_choices combo_dlg].
  destruct choices as [|c cs]; cbn [Py.truthy snd].
  { split; [|discriminate]. split; [discriminate|]. intros [? _]. congruence. }
  destruct (Py.index (c :: cs) _) as [e|ch] eqn:Hi; cbn [snd].
  - apply index_raises in Hi as [-> Hout]. split.
    + split; [intros _; split; [discriminate|exact Hout]|reflexivity].
    + now intros e [= <-].
  - split; [|discriminate]. split; [discriminate|]. intros [_ Hout].
    rewrite index_out_of_range in Hi by exact Hout. discriminate.
Qed.

(** X12: SetItems with an empty list never raises: it leaves no choices,
    an empty annotation, the identifiers as they were, and the combo box
    with its Items emptied and the old Value assigned. *)
Theorem X12_SetItems_empty
    (C : Type) (combo : ComboBox C) (w : NameSubcriberComboBox C) :
  SetItems [] w
  = (mkWidget [] (IDs w)
       (cb_set_Value (cb_Value (combo_dlg w)) (cb_set_Items [] (combo_dlg w)))
       "",
     inr tt).
Proof. rewrite SetItems_as_update, update_annotation_spec. reflexivity. Qed.

(** ** sorted *)

Section SortedFacts.

Context {A : Type}.
Variable leb : A -> A -> bool.

Lemma insert_perm (a : A) (xs : list A) :
  Permutation (Builtins.insert leb a xs) (a :: xs).
Proof.
  induction xs as [|b xs IH]; simpl; [reflexivity|].
  destruct (leb a b); [reflexivity|].
  rewrite IH. apply perm_swap.
Qed.

Lemma sorted_perm (xs : list A) : Permutation (Builtins.sorted leb xs) xs.
Proof.
  induction xs as [|a xs IH]; simpl; [reflexivity|].
  rewrite insert_perm. now apply perm_skip.
Qed.

Lemma sorted_length (xs : list A) :
  List.length (Builtins.sorted leb xs) = List.length xs.
Proof. apply Permutation_length, sorted_perm. Qed.

Lemma sorted_In (xs : list A) (a : A) :
  In a (Builtins.sorted leb xs) <-> In a xs.
Proof.
  split; apply Permutation_in;
    [apply sorted_perm|apply Permutation_sym, sorted_perm].
Qed.

Variable R : A -> A -> Prop.
Hypothesis R_trans : forall a b c, R a b -> R b c -> R a c.
Hypothesis leb_R : forall a b, leb a b = true -> R a b.
Hypothesis not_leb_R : forall a b, leb a b = false -> R b a.

Lemma insert_sorted (a : A) (xs : list A) :
  StronglySorted R xs -> StronglySorted R (Builtins.insert leb a xs).
Proof.
  induction 1 as [|b xs Hs IH Hall]; simpl.
  - constructor; constructor.
  - destruct (leb a b) eqn:E.
    + constructor; [now constructor|].
      constructor; [now apply leb_R|].
      eapply Forall_impl; [|exact Hall].
      intros c Hbc. eapply R_trans; [apply leb_R; exact E|exact Hbc].
    + constructor; [exact IH|].
      apply Forall_forall. intros c Hc.
      apply (Permutation_in _ (insert_perm a xs)) in Hc as [<-|Hc].
      * now apply not_leb_R.
      * rewrite Forall_forall in Hall. now apply Hall.
Qed.

Lemma sorted_sorted (xs : list A) : StronglySorted R (Builtins.sorted leb xs).
Proof.
  induction xs as [|a xs IH]; simpl; [constructor|now apply insert_sorted].
Qed.

End SortedFacts.

Lemma insert_map {A B : Type} (f : A -> B) (leb : B -> B -> bool)
    (a : A) (xs : list A) :
  map f (Builtins.insert (fun x y => leb (f x) (f y)) a xs)
  = Builtins.insert leb (f a) (map f xs).
Proof.
  induction xs as [|b xs IH]; simpl; [reflexivity|].
  destruct (leb (f a) (f b)); simpl; [reflexivity|now rewrite IH].
Qed.

Lemma sorted_map {A B : Type} (f : A -> B) (leb : B -> B -> bool)
    (xs : list A) :
  map f (Builtins.sorted (fun x y => leb (f x) (f y)) xs)
  = Builtins.sorted leb (map f xs).
Proof.
  induction xs as [|a xs IH]; simpl; [reflexivity|].
  now rewrite insert_map, IH.
Qed.

(** ** choices_sorted_by_num *)

(** The order of [str] values. *)

Lemma string_leb_refl (s : string) : String.leb s s = true.
Proof.
  unfold String.leb.
  replace (String.compare s s) with Eq; [reflexivity|].
  symmetry. induction s as [|c s IH]; simpl; [reflexivity|].
  unfold Ascii.compare. now rewrite N.compare_refl.
Qed.

Lemma string_leb_trans (a b c : string) :
  String.leb a b = true -> String.leb b c = true -> String.leb a c = true.
Proof.
  unfold String.leb.
  revert b c; induction a as [|x a IH]; intros [|y b] [|z c]; simpl;
    try reflexivity; try discriminate.
  unfold Ascii.compare.
  destruct (N.compare_spec (N_of_ascii x) (N_of_ascii y)) as [Exy|Lxy|Gxy];
    destruct (N.compare_spec (N_of_ascii y) (N_of_ascii z)) as [Eyz|Lyz|Gyz];
    try discriminate; intros Hab Hbc.
  - rewrite Exy, Eyz, N.compare_refl. now apply (IH b c).
  - rewrite Exy. now apply N.compare_lt_iff in Lyz as ->.
  - rewrite <- Eyz. now apply N.compare_lt_iff in Lxy as ->.
  - assert (L : (N_of_ascii x < N_of_ascii z)%N) by lia.
    now apply N.compare_lt_iff in L as ->.
Qed.

Lemma string_not_leb (a b : string) :
  String.leb a b = false -> String.leb b a = true.
Proof.
  intros Hab. destruct (String.leb_total a b) as [E|E]; congruence.
Qed.

Lemma num_then_text_trans n1 s1 n2 s2 n3 s3 :
  num_then_text n1 s1 n2 s2 -> num_then_text n2 s2 n3 s3 ->
  num_then_text n1 s1 n3 s3.
Proof.
  unfold num_then_text. intros [H12|[-> H12]] [H23|[-> H23]]; auto.
  - left. lia.
  - right. split; [reflexivity|]. eapply string_leb_trans; eassumption.
Qed.

Lemma tuple_leb_order (a b : sort_tuple) :
  tuple_leb a b = true ->
  num_then_text (fst (fst (fst (fst a)))) (snd (fst (fst (fst a))))
                (fst (fst (fst (fst b)))) (snd (fst (fst (fst b)))).
Proof.
  destruct a as [[[[n1 s1] t1] m1] i1], b as [[[[n2 s2] t2] m2] i2].
  unfold tuple_leb, tuple_compare, num_then_text, String.leb. cbn [fst snd].
  destruct (Z.compare_spec n1 n2); [|left; lia|discriminate].
  intros Hle. right. split; [assumption|].
  destruct (String.compare s1 s2); auto.
Qed.

Lemma tuple_not_leb_order (a b : sort_tuple) :
  tuple_leb a b = false ->
  num_then_text (fst (fst (fst (fst b)))) (snd (fst (fst (fst b))))
                (fst (fst (fst (fst a)))) (snd (fst (fst (fst a)))).
Proof.
  destruct a as [[[[n1 s1] t1] m1] i1], b as [[[[n2 s2] t2] m2] i2].
  unfold tuple_leb, tuple_compare, num_then_text. cbn [fst snd].
  destruct (Z.compare_spec n1 n2); [|discriminate|left; lia].
  intros Hgt. right. split; [auto|].
  destruct (String.compare s1 s2) eqn:E.
  - apply String.compare_eq_iff in E as ->. apply string_leb_refl.
  - discriminate.
  - apply string_not_leb. unfold String.leb. now rewrite E.
Qed.

Lemma drop_first_fields (t : sort_tuple) :
  snd (fst t) = fst (fst (fst (fst t))) ->
  mc_num (drop_first t) = fst (fst (fst (fst t))) /\
  mc_name (drop_first t) = snd (fst (fst (fst t))).
Proof. destruct t as [[[[n s] a] m] i]. cbn. auto. Qed.

Lemma to_sort_tuple_nums (p : choice * Z) :
  snd (fst (to_sort_tuple p)) = fst (fst (fst (fst (to_sort_tuple p)))).
Proof. destruct p as [[[n a] num] i]. reflexivity. Qed.

Lemma drop_first_sorted (ts : list sort_tuple) :
  Forall (fun t => snd (fst t) = fst (fst (fst (fst t)))) ts ->
  StronglySorted
    (fun a b =>
       num_then_text (fst (fst (fst (fst a)))) (snd (fst (fst (fst a))))
                     (fst (fst (fst (fst b)))) (snd (fst (fst (fst b))))) ts ->
  StronglySorted
    (fun a b => num_then_text (mc_num a) (mc_name a) (mc_num b) (mc_name b))
    (map drop_first ts).
Proof.
  intros Hnums Hs. induction Hs as [|t l Hs IH Hall]; simpl; [constructor|].
  inversion Hnums as [|? ? Ht Hl]; subst.
  constructor; [now apply IH|].
  apply Forall_map. rewrite Forall_forall in *.
  intros u Hu.
  destruct (drop_first_fields t Ht) as [-> ->].
  destruct (drop_first_fields u (Hl u Hu)) as [-> ->]. auto.
Qed.

(** X13: choices_sorted_by_num lists exactly the choices that have an
    identifier, each with its identifier, that is the pairs of
    zip(orig_choices, IDs) flattened to (name, annotation, num, id).  They
    come in increasing order of module number and, for equal numbers, in
    the order of their names as strings.  In particular the list has
    min(len(orig_choices), len(IDs)) elements. *)
Theorem X13_choices_sorted_by_num
    (orig_choices : list choice) (IDs : list Z) :
  Permutation
    (choices_sorted_by_num orig_choices IDs)
    (map (fun p : choice * Z =>
            (fst (fst (fst p)), snd (fst (fst p)), snd (fst p), snd p))
         (combine orig_choices IDs)) /\
  StronglySorted
    (fun a b =>
       mc_num a < mc_num b \/
       (mc_num a = mc_num b /\ String.leb (mc_name a) (mc_name b) = true))
    (choices_sorted_by_num orig_choices IDs) /\
  List.length (choices_sorted_by_num orig_choices IDs)
  = Nat.min (List.length orig_choices) (List.length IDs).
Proof.
  unfold choices_sorted_by_num.
  set (ts := map to_sort_tuple (combine orig_choices IDs)).
  assert (Hperm : Permutation (Builtins.sorted tuple_leb ts) ts)
    by apply sorted_perm.
  split; [|split].
  - rewrite (Permutation_map drop_first Hperm). unfold ts.
    rewrite map_map.
    erewrite map_ext; [reflexivity|].
    now intros [[[n a] num] i].
  - assert (Hnums : Forall (fun t => snd (fst t) = fst (fst (fst (fst t))))
                      (Builtins.sorted tuple_leb ts)).
    { apply Forall_forall. intros t Ht. apply sorted_In in Ht.
      unfold ts in Ht. apply in_map_iff in Ht as (p & <- & _).
      apply to_sort_tuple_nums. }
    apply (drop_first_sorted _ Hnums).
    apply sorted_sorted.
    + intros a b c. apply num_then_text_trans.
    + apply tuple_leb_order.
    + apply tuple_not_leb_order.
  - rewrite length_map, sorted_length. unfold ts.
    now rewrite length_map, length_combine.
Qed.

(** ** The dictionary of submenus *)

Lemma submenu_key_eqb_spec (a b : submenu_key) :
  reflect (a = b) (submenu_key_eqb a b).
Proof.
  destruct a as [n s], b as [m t]. unfold submenu_key_eqb. cbn [fst snd].
  destruct (Z.eqb_spec n m) as [->|Hn]; cbn.
  - destruct (String.eqb_spec s t) as [->|Hs]; constructor; congruence.
  - constructor. congruence.
Qed.

Lemma submenu_key_eqb_refl (k : submenu_key) : submenu_key_eqb k k = true.
Proof. now destruct (submenu_key_eqb_spec k k). Qed.

Lemma str_truthy_iff (s : string) : Py.str_truthy s = true <-> s <> "".
Proof. destruct s; simpl; split; congruence. Qed.

Section DictFacts.

Context {V : Type}.
Implicit Types (d : list (submenu_key * V)) (k : submenu_key) (v : V).

#[local] Abbreviation get := (Builtins.get submenu_key_eqb).
#[local] Abbreviation set := (Builtins.set submenu_key_eqb).

Lemma get_set k k' v d :
  get k (set k' v d) = if submenu_key_eqb k k' then Some v else get k d.
Proof.
  induction d as [|[k0 v0] d IH]; simpl.
  - now destruct (submenu_key_eqb k k').
  - destruct (submenu_key_eqb_spec k' k0) as [->|Hne]; simpl.
    + now destruct (submenu_key_eqb k k0).
    + rewrite IH.
      destruct (submenu_key_eqb_spec k k0) as [->|Hne'];
        [|reflexivity].
      destruct (submenu_key_eqb_spec k0 k'); congruence.
Qed.

Lemma set_set k v1 v2 d : set k v2 (set k v1 d) = set k v2 d.
Proof.
  induction d as [|[k0 v0] d IH]; simpl.
  - now rewrite submenu_key_eqb_refl.
  - destruct (submenu_key_eqb k k0) eqn:E; simpl.
    + now rewrite submenu_key_eqb_refl.
    + now rewrite E, IH.
Qed.

Lemma set_keys_In k k' v d :
  In k (map fst (set k' v d)) <-> k = k' \/ In k (map fst d).
Proof.
  induction d as [|[k0 v0] d IH]; simpl.
  - intuition.
  - destruct (submenu_key_eqb_spec k' k0) as [->|Hne]; simpl.
    + intuition.
    + rewrite IH. intuition.
Qed.

Lemma set_keys_NoDup k v d :
  NoDup (map fst d) -> NoDup (map fst (set k v d)).
Proof.
  induction d as [|[k0 v0] d IH]; simpl; intros Hnd.
  - constructor; [auto|constructor].
  - inversion Hnd as [|? ? Hnotin Hnd']; subst.
    destruct (submenu_key_eqb_spec k k0) as [->|Hne]; simpl.
    + now constructor.
    + constructor; [|now apply IH].
      rewrite set_keys_In. intuition.
Qed.

Lemma get_In k v d : get k d = Some v -> In (k, v) d.
Proof.
  induction d as [|[k0 v0] d IH]; simpl; [discriminate|].
  destruct (submenu_key_eqb_spec k k0) as [->|Hne].
  - intros [= ->]. now left.
  - intros Hg. right. now apply IH.
Qed.

Lemma In_get k v d : NoDup (map fst d) -> In (k, v) d -> get k d = Some v.
Proof.
  induction d as [|[k0 v0] d IH]; simpl; intros Hnd Hin; [contradiction|].
  inversion Hnd as [|? ? Hnotin Hnd']; subst.
  destruct Hin as [[= -> ->]|Hin].
  - now rewrite submenu_key_eqb_refl.
  - destruct (submenu_key_eqb_spec k k0) as [->|Hne]; [|now apply IH].
    exfalso. apply Hnotin. now apply (in_map fst) in Hin.
Qed.

End DictFacts.

Lemma fill_submenus_cons (c : menu_choice) (choices : list menu_choice)
    (submenus : submenus_dict) :
  fill_submenus (c :: choices) submenus
  = fill_submenus choices
      (if Py.str_truthy (mc_annotation c)
       then Builtins.set submenu_key_eqb (choice_key c) [choice_item c] submenus
       else submenus).
Proof.
  cbn [fill_submenus].
  destruct (Py.str_truthy (mc_annotation c)); cbn [negb]; [|reflexivity].
  unfold str_in_submenus, submenu_append. cbn [negb].
  fold (choice_key c).
  rewrite get_set, submenu_key_eqb_refl, set_set. reflexivity.
Qed.

Lemma fill_submenus_get (choices : list menu_choice) (submenus : submenus_dict) :
  exists submenus' : submenus_dict,
    fill_submenus choices submenus = Some submenus' /\
    (NoDup (map fst submenus) -> NoDup (map fst submenus')) /\
    forall k : submenu_key,
      Builtins.get submenu_key_eqb k submenus'
      = match last_annotated k choices with
        | Some c => Some [choice_item c]
        | None => Builtins.get submenu_key_eqb k submenus
        end.
Proof.
  revert submenus; induction choices as [|c choices IH]; intros submenus.
  - exists submenus. repeat split; auto.
  - rewrite fill_submenus_cons.
    destruct (IH (if Py.str_truthy (mc_annotation c)
                  then Builtins.set submenu_key_eqb (choice_key c)
                         [choice_item c] submenus
                  else submenus)) as (d' & Hfill & Hnd & Hget).
    exists d'. split; [exact Hfill|]. split.
    + intros H0. apply Hnd.
      destruct (Py.str_truthy (mc_annotation c)); [|exact H0].
      now apply set_keys_NoDup.
    + intros k. rewrite Hget. cbn [last_annotated].
      destruct (last_annotated k choices); [reflexivity|].
      destruct (Py.str_truthy (mc_annotation c)); cbn [andb]; [|reflexivity].
      rewrite get_set. now destruct (submenu_key_eqb k (choice_key c)).
Qed.

Lemma last_annotated_none (k : submenu_key) (choices : list menu_choice) :
  last_annotated k choices = None ->
  forall c, In c choices -> mc_annotation c <> "" -> choice_key c <> k.
Proof.
  induction choices as [|c0 choices IH]; simpl; [contradiction|].
  destruct (last_annotated k choices); [discriminate|].
  destruct (Py.str_truthy (mc_annotation c0) && submenu_key_eqb k (choice_key c0))
    eqn:E; [discriminate|].
  intros _ c [<-|Hin] Hann.
  - apply str_truthy_iff in Hann. rewrite Hann in E. cbn [andb] in E.
    destruct (submenu_key_eqb_spec k (choice_key c0)); congruence.
  - now apply IH.
Qed.

Lemma last_annotated_some (k : submenu_key) (choices : list menu_choice)
    (c : menu_choice) :
  last_annotated k choices = Some c ->
  exists pre post : list menu_choice,
    choices = (pre ++ c :: post)%list /\
    mc_annotation c <> "" /\ choice_key c = k /\
    forall c', In c' post -> mc_annotation c' <> "" -> choice_key c' <> k.
Proof.
  induction choices as [|c0 choices IH]; simpl; [discriminate|].
  destruct (last_annotated k choices) as [c1|] eqn:E.
  - intros [= ->]. destruct (IH eq_refl) as (pre & post & -> & H1 & H2 & H3).
    exists (c0 :: pre), post. auto.
  - destruct (Py.str_truthy (mc_annotation c0)) eqn:Hann; cbn [andb];
      [|discriminate].
    destruct (submenu_key_eqb_spec k (choice_key c0)) as [->|Hne];
      [|discriminate].
    intros [= <-]. exists [], choices. repeat split; auto.
    + now apply str_truthy_iff.
    + now apply last_annotated_none.
Qed.

(** X14: how the submenus are filled (lines 104-110).  The loop never
    fails on a missing key.  It leaves one submenu per key
    (num, annotation) borne by a choice that has an annotation, and every
    submenu holds a single item: [annotation in submenus] asks the
    dictionary for a string where its keys are pairs, so each choice
    starts a fresh menu, and the item left is that of the last choice
    with that key. *)
Theorem X14_submenus_hold_last_choice (choices : list menu_choice) :
  exists submenus : submenus_dict,
    fill_submenus choices [] = Some submenus /\
    NoDup (map fst submenus) /\
    (forall (k : submenu_key) (submenu : WxMenu.Menu),
        In (k, submenu) submenus ->
        exists (pre post : list menu_choice) (c : menu_choice),
          choices = (pre ++ c :: post)%list /\
          mc_annotation c <> "" /\ choice_key c = k /\
          submenu = [Wx.mkMenuItem (mc_id c) (mc_name c)] /\
          forall c', In c' post -> mc_annotation c' <> "" -> choice_key c' <> k) /\
    (forall c : menu_choice,
        In c choices -> mc_annotation c <> "" ->
        In (choice_key c) (map fst submenus)).
Proof.
  destruct (fill_submenus_get choices []) as (d & Hfill & Hnd & Hget).
  specialize (Hnd (NoDup_nil _)).
  exists d. split; [exact Hfill|]. split; [exact Hnd|]. split.
  - intros k v Hin. apply (In_get _ _ _ Hnd) in Hin.
    rewrite Hget in Hin.
    destruct (last_annotated k choices) as [c|] eqn:E; [|discriminate].
    injection Hin as <-.
    destruct (last_annotated_some _ _ _ E) as (pre & post & H1 & H2 & H3 & H4).
    exists pre, post, c. auto.
  - intros c Hin Hann.
    destruct (last_annotated (choice_key c) choices) as [c'|] eqn:E.
    + specialize (Hget (choice_key c)). rewrite E in Hget.
      apply get_In in Hget. now apply (in_map fst) in Hget.
    + exfalso. now apply (last_annotated_none _ _ E c).
Qed.

(** ** right_menu *)

Lemma relabel_map {X : Type} (item : X -> Wx.MenuItem) (label : X -> string)
    (xs : list X) :
  relabel (map item xs) (map label xs)
  = map (fun x => Wx.SetItemLabel (label x) (item x)) xs.
Proof. induction xs as [|x xs IH]; simpl; [reflexivity|now rewrite IH]. Qed.

Lemma combine_map {X A B : Type} (f : X -> A) (g : X -> B) (xs : list X) :
  combine (map f xs) (map g xs) = map (fun x => (f x, g x)) xs.
Proof. induction xs as [|x xs IH]; simpl; [reflexivity|now rewrite IH]. Qed.

Lemma map_eq_nil_inv {A B : Type} (f : A -> B) (xs : list A) :
  xs <> [] -> map f xs <> [].
Proof. destruct xs; simpl; congruence. Qed.

Section AlignMapped.

Context {X : Type}.
Variable Platform : string.
Variable GetTextExtent : string -> Z * Z.
Variable min_spacing : Z.
Variable item : X -> Wx.MenuItem.
Variables ltext rtext : X -> string.

Lemma align_mapped (xs : list X) :
  Platform = Wx.WXMSW \/ spacewidth GetTextExtent <> 0 ->
  align_twosided_items Platform GetTextExtent min_spacing
    (map item xs) (map ltext xs) (map rtext xs)
  = (map (fun x =>
            Wx.SetItemLabel
              (item_label Platform GetTextExtent min_spacing
                 (map ltext xs) (map rtext xs) (ltext x) (rtext x))
              (item x))
         xs,
     None).
Proof.
  intros Hok. destruct xs as [|x0 xs]; [reflexivity|].
  set (ys := x0 :: xs). assert (Hne : ys <> []) by discriminate.
  unfold item_label.
  destruct (String.eqb_spec Platform Wx.WXMSW) as [HP|HP].
  - rewrite align_msw by assumption. unfold tab_labels.
    rewrite combine_map, map_map, relabel_map. reflexivity.
  - destruct Hok as [HP'|Hsw]; [contradiction|].
    destruct (align_padded Platform GetTextExtent min_spacing
                (map item ys) (map ltext ys) (map rtext ys))
      as (mw & Hmax & ->); auto using map_eq_nil_inv.
    rewrite Hmax. unfold padded_labels.
    rewrite combine_map, map_map, relabel_map. reflexivity.
Qed.

Lemma align_mapped_zero (xs : list X) :
  Platform <> Wx.WXMSW -> spacewidth GetTextExtent = 0 -> xs <> [] ->
  align_twosided_items Platform GetTextExtent min_spacing
    (map item xs) (map ltext xs) (map rtext xs)
  = (map item xs, Some Py.ZeroDivisionError).
Proof.
  intros HP Hsw Hne.
  apply align_zero_spacewidth; auto using map_eq_nil_inv.
Qed.

End AlignMapped.

Lemma fold_left_append {X Y : Type} (f : X -> Y) (xs : list X) (acc : list Y) :
  fold_left (fun ys x => (ys ++ [f x])%list) xs acc = (acc ++ map f xs)%list.
Proof.
  revert acc; induction xs as [|x xs IH]; intros acc; simpl.
  - now rewrite app_nil_r.
  - rewrite IH, <- app_assoc. reflexivity.
Qed.

Lemma fill_all_menu_map (choices : list menu_choice) :
  fill_all_menu choices
  = map (fun c => Wx.mkMenuItem (mc_id c) "filler") choices.
Proof.
  unfold fill_all_menu, WxMenu.Append.
  now rewrite (fold_left_append (fun c => Wx.mkMenuItem (mc_id c) "filler")).
Qed.

Lemma fill_menu_map (all_menu : WxMenu.Menu) (submenus : submenus_dict) :
  fill_menu all_menu submenus
  = (Wx.mkMenuItem WxMenu.ID_ANY "All", all_menu)
    :: map (fun kv : submenu_key * WxMenu.Menu =>
              (Wx.mkMenuItem WxMenu.ID_ANY "filler", snd kv))
           (sorted_items submenus).
Proof.
  unfold fill_menu, WxMenu.AppendMenu.
  now rewrite (fold_left_append
                 (fun kv : submenu_key * WxMenu.Menu =>
                    (Wx.mkMenuItem WxMenu.ID_ANY "filler", snd kv))).
Qed.

Lemma sorted_keys_items (submenus : submenus_dict) :
  sorted_keys submenus = map fst (sorted_items submenus).
Proof. unfold sorted_keys, sorted_items. now rewrite sorted_map. Qed.

(** An entry of the popup menu before it is labelled: [None] is the entry
    "All", [Some kv] the entry of a submenu. *)
Lemma menu_as_maps (all_menu : WxMenu.Menu) (submenus : submenus_dict) :
  let xs := None :: map Some (sorted_items submenus) in
  WxMenu.MenuItems (fill_menu all_menu submenus)
  = map (fun x : option (submenu_key * WxMenu.Menu) =>
           match x with
           | None => Wx.mkMenuItem WxMenu.ID_ANY "All"
           | Some _ => Wx.mkMenuItem WxMenu.ID_ANY "filler"
           end) xs /\
  menu_left_texts submenus
  = map (fun x : option (submenu_key * WxMenu.Menu) =>
           match x with None => "All" | Some kv => snd (fst kv) end) xs /\
  menu_right_texts submenus
  = map (fun x : option (submenu_key * WxMenu.Menu) =>
           match x with
           | None => ""
           | Some kv => "#" ++ Py.fmt_02d (fst (fst kv))
           end) xs /\
  map snd (fill_menu all_menu submenus)
  = all_menu :: map snd (sorted_items submenus).
Proof.
  cbv zeta. unfold WxMenu.MenuItems, menu_left_texts, menu_right_texts.
  rewrite fill_menu_map, sorted_keys_items. cbn [map fst snd].
  rewrite !map_map. repeat split.
Qed.

Lemma combine_labelled {X Y : Type} (f : option X -> Y) (g : X -> WxMenu.Menu)
    (all_menu : WxMenu.Menu) (xs : list X) :
  combine (map f (None :: map Some xs)) (all_menu :: map g xs)
  = (f None, all_menu) :: map (fun x => (f (Some x), g x)) xs.
Proof.
  cbn [map combine]. f_equal.
  induction xs as [|x xs IH]; simpl; [reflexivity|now rewrite IH].
Qed.

Section RightMenuFacts.

Context {C : Type}.
Variable Platform : string.
Variable GetTextExtent : string -> Z * Z.
Variable self : NameSubcriberComboBox C.

Lemma right_menu_popup :
  Platform = Wx.WXMSW \/ spacewidth GetTextExtent <> 0 ->
  let choices := choices_sorted_by_num (orig_choices self) (IDs self) in
  exists submenus : submenus_dict,
    fill_submenus choices [] = Some submenus /\
    right_menu Platform GetTextExtent self
    = PopupMenu
        ((Wx.mkMenuItem WxMenu.ID_ANY
            (item_label Platform GetTextExtent 8
               (menu_left_texts submenus) (menu_right_texts submenus) "All" ""),
          map (fun c =>
                 Wx.mkMenuItem (mc_id c)
                   (item_label Platform GetTextExtent 8
                      (all_left_texts choices) (all_right_texts choices)
                      (mc_name c) (all_right_text c)))
              choices)
         :: map (fun kv : submenu_key * WxMenu.Menu =>
                   (Wx.mkMenuItem WxMenu.ID_ANY
                      (item_label Platform GetTextExtent 8
                         (menu_left_texts submenus) (menu_right_texts submenus)
                         (snd (fst kv)) ("#" ++ Py.fmt_02d (fst (fst kv)))),
                    snd kv))
                (sorted_items submenus)).
Proof.
  intros Hok choices.
  destruct (fill_submenus_get choices []) as (d & Hfill & _ & _).
  exists d. split; [exact Hfill|].
  unfold right_menu. fold choices.
  rewrite fill_all_menu_map. unfold all_left_texts, all_right_texts.
  rewrite align_mapped by exact Hok.
  rewrite Hfill.
  match goal with
  | |- context [fill_menu ?a d] =>
      destruct (menu_as_maps a d) as (E1 & E2 & E3 & E4)
  end.
  rewrite E1, E4.
  rewrite E2 at 1. rewrite E3 at 1.
  rewrite align_mapped by exact Hok.
  rewrite <- E2, <- E3.
  rewrite combine_labelled. reflexivity.
Qed.

Lemma right_menu_zero :
  Platform <> Wx.WXMSW -> spacewidth GetTextExtent = 0 ->
  right_menu Platform GetTextExtent self = Raise Py.ZeroDivisionError.
Proof.
  intros HP Hsw. unfold right_menu.
  rewrite fill_all_menu_map. unfold all_left_texts, all_right_texts.
  destruct (choices_sorted_by_num (orig_choices self) (IDs self)) as [|c cs].
  - cbn [map]. rewrite align_no_items. cbn [fill_submenus].
    rewrite align_zero_spacewidth; auto; discriminate.
  - now rewrite align_mapped_zero.
Qed.

Lemma choices_sorted_by_num_ids :
  Permutation
    (map mc_id (choices_sorted_by_num (orig_choices self) (IDs self)))
    (firstn (List.length (orig_choices self)) (IDs self)).
Proof.
  unfold choices_sorted_by_num.
  rewrite (Permutation_map mc_id
             (Permutation_map drop_first (sorted_perm tuple_leb _))).
  rewrite !map_map.
  generalize (orig_choices self) (IDs self).
  induction l as [|[[n a] num] l IH]; intros [|i ids]; simpl; auto.
Qed.

End RightMenuFacts.

(** X15: the menu that right_menu pops up.  On Windows, or with a
    non-zero space width, right_menu returns normally and the menu has
    this shape: first an entry whose submenu lists every sorted choice,
    each item carrying the choice's identifier and the aligned label of its
    name and "(annotation #NN)"; then one entry per submenu, in the order
    of sorted(submenus.items()), labelled with the aligned annotation and
    "#NN" of that submenu's own key. *)
Theorem X15_right_menu_popup
    (C : Type) (Platform : string) (GetTextExtent : string -> Z * Z)
    (self : NameSubcriberComboBox C) :
  Platform = Wx.WXMSW \/ spacewidth GetTextExtent <> 0 ->
  let choices := choices_sorted_by_num (orig_choices self) (IDs self) in
  exists submenus : submenus_dict,
    fill_submenus choices [] = Some submenus /\
    right_menu Platform GetTextExtent self
    = PopupMenu
        ((Wx.mkMenuItem WxMenu.ID_ANY
            (item_label Platform GetTextExtent 8
               (menu_left_texts submenus) (menu_right_texts submenus) "All" ""),
          map (fun c =>
                 Wx.mkMenuItem (mc_id c)
                   (item_label Platform GetTextExtent 8
                      (all_left_texts choices) (all_right_texts choices)
                      (mc_name c) (all_right_text c)))
              choices)
         :: map (fun kv : submenu_key * WxMenu.Menu =>
                   (Wx.mkMenuItem WxMenu.ID_ANY
                      (item_label Platform GetTextExtent 8
                         (menu_left_texts submenus) (menu_right_texts submenus)
                         (snd (fst kv)) ("#" ++ Py.fmt_02d (fst (fst kv)))),
                    snd kv))
                (sorted_items submenus)).
Proof. intros Hok. now apply right_menu_popup. Qed.

(** X16: how right_menu ends.  It raises exactly when the platform is not
    Windows and the space width is zero, and then it raises
    ZeroDivisionError, whatever the choices are, even with none; in every
    other case it pops up a menu.  It never raises ValueError, IndexError
    or KeyError. *)
Theorem X16_right_menu_outcome
    (C : Type) (Platform : string) (GetTextExtent : string -> Z * Z)
    (self : NameSubcriberComboBox C) :
  (right_menu Platform GetTextExtent self = Raise Py.ZeroDivisionError <->
   Platform <> Wx.WXMSW /\ spacewidth GetTextExtent = 0) /\
  ((exists menu, right_menu Platform GetTextExtent self = PopupMenu menu) <->
   Platform = Wx.WXMSW \/ spacewidth GetTextExtent <> 0) /\
  right_menu Platform GetTextExtent self <> Raise Py.ValueError /\
  right_menu Platform GetTextExtent self <> Raise Py.IndexError /\
  right_menu Platform GetTextExtent self <> RaiseKeyError.
Proof.
  destruct (String.eqb_spec Platform Wx.WXMSW) as [HP|HP].
  - destruct (right_menu_popup Platform GetTextExtent self (or_introl HP))
      as (d & _ & ->).
    repeat split; try discriminate; try tauto; eauto.
  - destruct (Z.eq_dec (spacewidth GetTextExtent) 0) as [Hsw|Hsw].
    + rewrite (right_menu_zero Platform GetTextExtent self HP Hsw).
      repeat split; try discriminate; try tauto;
        try (intros [menu Hm]; discriminate);
        try (intros [?|?]; contradiction).
    + destruct (right_menu_popup Platform GetTextExtent self (or_intror Hsw))
        as (d & _ & ->).
      repeat split; try discriminate; try tauto; eauto.
Qed.

Lemma X15_right_menu_popup_witness :
  let self :=
    mkWidget [("Nuclei", "IdentifyPrimaryObjects", 2); ("DNA", "", 1);
              ("Outlines", "IdentifyPrimaryObjects", 2)] [100; 101; 102]
      (PlainCombo.mk ["Nuclei"; "DNA"; "Outlines"] "DNA" 1) "" in
  let choices := choices_sorted_by_num (orig_choices self) (IDs self) in
  exists submenus : submenus_dict,
    fill_submenus choices [] = Some submenus /\
    right_menu "__WXGTK__" (text_extent len) self
    = PopupMenu
        ((Wx.mkMenuItem WxMenu.ID_ANY
            (item_label "__WXGTK__" (text_extent len) 8
               (menu_left_texts submenus) (menu_right_texts submenus) "All" ""),
          map (fun c =>
                 Wx.mkMenuItem (mc_id c)
                   (item_label "__WXGTK__" (text_extent len) 8
                      (all_left_texts choices) (all_right_texts choices)
                      (mc_name c) (all_right_text c)))
              choices)
         :: map (fun kv : submenu_key * WxMenu.Menu =>
                   (Wx.mkMenuItem WxMenu.ID_ANY
                      (item_label "__WXGTK__" (text_extent len) 8
                         (menu_left_texts submenus) (menu_right_texts submenus)
                         (snd (fst kv)) ("#" ++ Py.fmt_02d (fst (fst kv)))),
                    snd kv))
                (sorted_items submenus)).
Proof.
  intros self.
  apply (X15_right_menu_popup PlainCombo.t "__WXGTK__" (text_extent len) self).
  right. vm_compute. discriminate.
Defined.

Lemma submenu_key_leb_order (a b : submenu_key) :
  submenu_key_leb a b = true ->
  num_then_text (fst a) (snd a) (fst b) (snd b).
Proof.
  unfold submenu_key_leb, num_then_text.
  destruct (Z.compare_spec (fst a) (fst b)); [auto|left; lia|discriminate].
Qed.

Lemma submenu_key_not_leb_order (a b : submenu_key) :
  submenu_key_leb a b = false ->
  num_then_text (fst b) (snd b) (fst a) (snd a).
Proof.
  unfold submenu_key_leb, num_then_text.
  destruct (Z.compare_spec (fst a) (fst b)); [|discriminate|left; lia].
  intros Hgt. right. split; [auto|]. now apply string_not_leb.
Qed.

(** X17: the entries of the popup menu and their labels line up.  The
    submenus are appended in the order of sorted(submenus.items()) and the
    label texts are computed from sorted(submenus.keys()); the keys of the
    former are the latter, so every entry is labelled from its own key.
    The sorted items are the dictionary's entries, each once, in
    increasing order of module number and, for equal numbers, in the order
    of their annotations as strings. *)
Theorem X17_submenu_entries_in_order (submenus : submenus_dict) :
  map fst (sorted_items submenus) = sorted_keys submenus /\
  Permutation (sorted_items submenus) submenus /\
  StronglySorted
    (fun a b =>
       fst (fst a) < fst (fst b) \/
       (fst (fst a) = fst (fst b) /\
        String.leb (snd (fst a)) (snd (fst b)) = true))
    (sorted_items submenus).
Proof.
  split; [symmetry; apply sorted_keys_items|]. split.
  - apply sorted_perm.
  - apply (sorted_sorted
             (fun a b : submenu_key * WxMenu.Menu =>
                submenu_key_leb (fst a) (fst b))
             (fun a b =>
                num_then_text (fst (fst a)) (snd (fst a))
                              (fst (fst b)) (snd (fst b)))).
    + intros a b c. apply num_then_text_trans.
    + intros a b. apply submenu_key_leb_order.
    + intros a b. apply submenu_key_not_leb_order.
Qed.

(** X18: the "All" submenu offers the choices that have an identifier.
    When right_menu pops up its menu, the submenu of the first entry has
    min(len(orig_choices), len(IDs)) items, and their identifiers are the
    first len(orig_choices) of IDs, each once: a choice beyond the end of
    IDs is not offered. *)
Theorem X18_all_menu_offers_zipped_choices
    (C : Type) (Platform : string) (GetTextExtent : string -> Z * Z)
    (self : NameSubcriberComboBox C) :
  Platform = Wx.WXMSW \/ spacewidth GetTextExtent <> 0 ->
  exists (item : Wx.MenuItem) (all_menu : WxMenu.Menu) (rest : WxMenu.TopMenu),
    right_menu Platform GetTextExtent self
    = PopupMenu ((item, all_menu) :: rest) /\
    List.length all_menu
    = Nat.min (List.length (orig_choices self)) (List.length (IDs self)) /\
    Permutation (map Wx.Id all_menu)
      (firstn (List.length (orig_choices self)) (IDs self)).
Proof.
  intros Hok.
  destruct (right_menu_popup Platform GetTextExtent self Hok) as (d & _ & ->).
  eexists _, _, _. split; [reflexivity|]. split.
  - rewrite length_map.
    unfold choices_sorted_by_num.
    now rewrite length_map, sorted_length, length_map, length_combine.
  - rewrite map_map. cbn [Wx.Id].
    apply choices_sorted_by_num_ids.
Qed.

Lemma X18_all_menu_offers_zipped_choices_witness :
  let self :=
    mkWidget [("Nuclei", "IdentifyPrimaryObjects", 2); ("DNA", "", 1);
              ("Outlines", "IdentifyPrimaryObjects", 2)] [100; 101]
      (PlainCombo.mk ["Nuclei"; "DNA"; "Outlines"] "DNA" 1) "" in
  exists (item : Wx.MenuItem) (all_menu : WxMenu.Menu) (rest : WxMenu.TopMenu),
    right_menu "__WXMSW__" (text_extent len) self
    = PopupMenu ((item, all_menu) :: rest) /\
    List.length all_menu
    = Nat.min (List.length (orig_choices self)) (List.length (IDs self)) /\
    Permutation (map Wx.Id all_menu)
      (firstn (List.length (orig_choices self)) (IDs self)).
Proof.
  intros self.
  apply (X18_all_menu_offers_zipped_choices PlainCombo.t "__WXMSW__"
           (text_extent len) self).
  left. reflexivity.
Defined.

(** ** __init__ *)

Section InitFacts.

Context {C : Type} `{ComboBox C} `{ComboBoxNew C}.
Variable GetTextExtent : string -> Z * Z.
Variable next_id : Z.

Lemma init_cases (choices : list choice) (value : string) :
  let combo := cb_new (map choice_name choices) value in
  let self := mkWidget choices (new_ids next_id (List.length choices)) combo "" in
  __init__ GetTextExtent next_id choices value
  = match choices with
    | [] => inl Py.ValueError
    | _ :: _ =>
        match Py.index choices (cb_Selection combo) with
        | inl e => inl e
        | inr ch =>
            inr (set_Label
                   (if Py.str_truthy (snd (fst ch))
                    then from_label (snd (fst ch)) (snd ch) else "") self)
        end
    end.
Proof.
  cbv zeta. unfold __init__.
  destruct choices as [|c choices]; [reflexivity|].
  cbn [min_size_widths map Py.max].
  rewrite update_annotation_spec. cbn [orig_choices combo_dlg Py.truthy].
  destruct (Py.index (c :: choices) _); reflexivity.
Qed.

End InitFacts.

Lemma new_ids_NoDup (next_id : Z) (n : nat) : NoDup (new_ids next_id n).
Proof.
  unfold new_ids. generalize 0%nat as start.
  induction n as [|n IH]; intros start; simpl; constructor; [|apply IH].
  intros Hin. apply in_map_iff in Hin as (k & Hk & Hin).
  apply in_seq in Hin. lia.
Qed.

(** X19: when the constructor raises.  __init__ raises ValueError exactly
    when it is given no choices (the maximum for MinSize is taken over an
    empty list), so the default [choices=[]] cannot be used; it raises
    IndexError exactly when there are choices and the Selection of the
    new combo box is outside -len(choices) .. len(choices) - 1; it raises
    nothing else. *)
Theorem X19_init_raises
    (C : Type) (combo : ComboBox C) (new : ComboBoxNew C)
    (GetTextExtent : string -> Z * Z) (next_id : Z)
    (choices : list choice) (value : string) :
  let n := Z.of_nat (List.length choices) in
  let selection := cb_Selection (cb_new (map choice_name choices) value) in
  (__init__ GetTextExtent next_id choices value = inl Py.ValueError <->
   choices = []) /\
  (__init__ GetTextExtent next_id choices value = inl Py.IndexError <->
   choices <> [] /\ (selection < - n \/ n <= selection)) /\
  __init__ GetTextExtent next_id choices value <> inl Py.ZeroDivisionError.
Proof.
  cbv zeta. rewrite init_cases.
  destruct choices as [|c choices].
  { repeat split; try discriminate; try tauto. }
  destruct (Py.index (c :: choices) _) as [e|ch] eqn:Hi.
  - apply index_raises in Hi as [-> Hout].
    repeat split; try discriminate; auto.
  - repeat split; try discriminate.
    intros [_ Hout]. rewrite index_out_of_range in Hi by exact Hout.
    discriminate.
Qed.

(** X20: what the constructor builds.  Given at least one choice and a
    new combo box whose Selection is an index into the choices (counting
    from the end when negative), __init__ returns a widget that holds the
    choices as given, one identifier per choice, all distinct, the new
    combo box, and the annotation of the selected choice. *)
Theorem X20_init_builds
    (C : Type) (combo : ComboBox C) (new : ComboBoxNew C)
    (GetTextExtent : string -> Z * Z) (next_id : Z)
    (choices : list choice) (value : string) :
  let n := Z.of_nat (List.length choices) in
  let selection := cb_Selection (cb_new (map choice_name choices) value) in
  choices <> [] ->
  - n <= selection < n ->
  exists (self : NameSubcriberComboBox C) (ch : choice),
    __init__ GetTextExtent next_id choices value = inr self /\
    orig_choices self = choices /\
    List.length (IDs self) = List.length choices /\
    NoDup (IDs self) /\
    combo_dlg self = cb_new (map choice_name choices) value /\
    Py.index choices selection = inr ch /\
    annotation_Label self
    = (if Py.str_truthy (snd (fst ch))
       then "(from " ++ snd (fst ch) ++ " #" ++ Py.fmt_02d (snd ch) ++ ")"
       else "").
Proof.
  cbv zeta. intros Hne Hsel. rewrite init_cases.
  destruct choices as [|c choices]; [congruence|].
  destruct (index_in_range (c :: choices) _ Hsel) as [ch Hch].
  rewrite Hch. eexists _, ch. split; [reflexivity|].
  cbn [set_Label orig_choices IDs combo_dlg annotation_Label].
  repeat split.
  - unfold new_ids. now rewrite length_map, length_seq.
  - apply new_ids_NoDup.
Qed.

Lemma X20_init_builds_witness :
  let choices := [("Nuclei", "IdentifyPrimaryObjects", 2); ("DNA", "", 1)] in
  let selection :=
    cb_Selection (cb_new (C := PlainCombo.t) (map choice_name choices) "Nuclei") in
  exists (self : NameSubcriberComboBox PlainCombo.t) (ch : choice),
    __init__ (text_extent len) 100 choices "Nuclei" = inr self /\
    orig_choices self = choices /\
    List.length (IDs self) = List.length choices /\
    NoDup (IDs self) /\
    combo_dlg self = cb_new (map choice_name choices) "Nuclei" /\
    Py.index choices selection = inr ch /\
    annotation_Label self
    = (if Py.str_truthy (snd (fst ch))
       then "(from " ++ snd (fst ch) ++ " #" ++ Py.fmt_02d (snd ch) ++ ")"
       else "").
Proof.
  intros choices selection.
  apply (X20_init_builds PlainCombo.t PlainCombo.combo plain_combo_new
           (text_extent len) 100 choices "Nuclei").
  - discriminate.
  - change (-2 <= 0 < 2). lia.
Defined.

(** ** choice_made, add_callback, menu_selected *)

Lemma list_index_not_in (xs : list Z) (x : Z) :
  ~ In x xs -> list_index xs x = inl Py.ValueError.
Proof.
  induction xs as [|y xs IH]; simpl; [reflexivity|].
  intros Hnot. destruct (Z.eqb_spec y x) as [->|Hne]; [tauto|].
  rewrite IH by tauto. reflexivity.
Qed.

Lemma list_index_nth (xs : list Z) (x : Z) (j : nat) :
  NoDup xs -> nth_error xs j = Some x ->
  list_index xs x = inr (Z.of_nat j).
Proof.
  revert j; induction xs as [|y xs IH]; intros [|j] Hnd Hj; simpl in *;
    try discriminate.
  - injection Hj as ->. now rewrite Z.eqb_refl.
  - inversion Hnd as [|? ? Hnotin Hnd']; subst.
    destruct (Z.eqb_spec y x) as [->|Hne].
    + exfalso. apply Hnotin. eapply nth_error_In; eassumption.
    + rewrite (IH j Hnd' Hj). f_equal. lia.
Qed.

Lemma bind_ret_unit {S : Type} (m : M S unit) (s : S) :
  (m ;; ret tt) s = m s.
Proof. unfold bind, ret. now destruct (m s) as [s' [e|[]]]. Qed.

Section HandlerFacts.

Context {C : Type} `{ComboBox C} `{ComboBoxSelect C}.
Variable callbacks : list (callback C).
Variable evt : CommandEvent.

Lemma choice_made_out_of_range (w : NameSubcriberComboBox C) :
  let n := Z.of_nat (List.length (orig_choices w)) in
  cb_Selection (combo_dlg w) < - n \/ n <= cb_Selection (combo_dlg w) ->
  choice_made callbacks evt w = (w, inl Py.IndexError).
Proof.
  cbv zeta. intros Hout.
  cbv beta iota delta [choice_made bind gets lift].
  now rewrite index_out_of_range.
Qed.

Lemma choice_made_in_range (w : NameSubcriberComboBox C) :
  let n := Z.of_nat (List.length (orig_choices w)) in
  - n <= cb_Selection (combo_dlg w) < n ->
  choice_made callbacks evt w
  = match update_annotation w with
    | (w', inr _) => run_callbacks callbacks evt w'
    | (w', inl e) => (w', inl e)
    end.
Proof.
  cbv zeta. intros Hin.
  cbv beta iota delta [choice_made bind gets lift Refresh ret].
  destruct (index_in_range (orig_choices w) _ Hin) as [ch ->].
  destruct (update_annotation w) as [w' [e|[]]]; [reflexivity|].
  now destruct (run_callbacks callbacks evt w') as [w'' [e|[]]].
Qed.

Lemma menu_selected_found (w : NameSubcriberComboBox C) (i : Z) :
  list_index (IDs w) (evt_Id evt) = inr i ->
  menu_selected callbacks evt w
  = choice_made callbacks evt (set_combo (cb_set_Selection i) w).
Proof.
  intros Hi.
  cbv beta iota delta [menu_selected bind gets lift modify].
  now rewrite Hi.
Qed.

End HandlerFacts.

(** X21: menu_selected with an identifier that is not in IDs raises
    ValueError (from list.index) before anything is assigned: the widget
    is unchanged and no callback is called. *)
Theorem X21_menu_selected_unknown_id
    (C : Type) (combo : ComboBox C) (sel : ComboBoxSelect C)
    (callbacks : list (callback C)) (evt : CommandEvent)
    (w : NameSubcriberComboBox C) :
  ~ In (evt_Id evt) (IDs w) ->
  menu_selected callbacks evt w = (w, inl Py.ValueError).
Proof.
  intros Hnot.
  cbv beta iota delta [menu_selected bind gets lift].
  now rewrite list_index_not_in.
Qed.

Lemma X21_menu_selected_unknown_id_witness :
  menu_selected [] (mkEvent 7)
    (mkWidget [("DNA", "", 1)] [100] (PlainCombo.mk ["DNA"] "DNA" 0) "")
  = (mkWidget [("DNA", "", 1)] [100] (PlainCombo.mk ["DNA"] "DNA" 0) "",
     inl Py.ValueError).
Proof.
  apply (X21_menu_selected_unknown_id PlainCombo.t PlainCombo.combo
           plain_combo_select [] (mkEvent 7)
           (mkWidget [("DNA", "", 1)] [100] (PlainCombo.mk ["DNA"] "DNA" 0) "")).
  simpl. intros [E|[]]. discriminate.
Defined.

Lemma menu_selected_selects
    (C : Type) (combo : ComboBox C) (sel : ComboBoxSelect C)
    (callbacks : list (callback C)) (evt : CommandEvent)
    (w : NameSubcriberComboBox C) (j : nat) (name parent : string) (num : Z) :
  Selection_reads_back C ->
  NoDup (IDs w) ->
  nth_error (IDs w) j = Some (evt_Id evt) ->
  nth_error (orig_choices w) j = Some (name, parent, num) ->
  menu_selected callbacks evt w
  = run_callbacks callbacks evt
      (mkWidget (orig_choices w) (IDs w)
         (cb_set_Selection (Z.of_nat j) (combo_dlg w))
         (if Py.str_truthy parent
          then "(from " ++ parent ++ " #" ++ Py.fmt_02d num ++ ")" else "")).
Proof.
  intros Hlaw Hnd Hid Hch.
  rewrite (menu_selected_found callbacks evt w (Z.of_nat j))
    by now apply list_index_nth.
  set (w1 := set_combo (cb_set_Selection (Z.of_nat j)) w).
  assert (Hsel : cb_Selection (combo_dlg w1) = Z.of_nat j) by apply Hlaw.
  assert (Hlt : (j < List.length (orig_choices w))%nat)
    by (apply nth_error_Some; congruence).
  rewrite choice_made_in_range
    by (rewrite Hsel; change (orig_choices w1) with (orig_choices w); lia).
  rewrite update_annotation_spec, Hsel.
  change (orig_choices w1) with (orig_choices w).
  rewrite (index_nonneg (orig_choices w) (Z.of_nat j) (name, parent, num))
    by (rewrite ?Nat2Z.id; auto; lia).
  destruct (orig_choices w) as [|c cs] eqn:E; [now destruct j|].
  cbn [Py.truthy]. rewrite <- E. reflexivity.
Qed.


(** X22: picking an entry selects its choice.  Let the identifiers be
    distinct and let the combo box read back the Selection assigned to
    it.  When the event carries the identifier at position j of IDs and
    there is a choice at position j, menu_selected assigns j to Selection,
    sets the annotation to that of choice j, and then runs the callbacks,
    in order, on the widget so updated. *)
Theorem X22_menu_selected_selects
    (C : Type) (combo : ComboBox C) (sel : ComboBoxSelect C)
    (callbacks : list (callback C)) (evt : CommandEvent)
    (w : NameSubcriberComboBox C) (j : nat) (name parent : string) (num : Z) :
  Selection_reads_back C ->
  NoDup (IDs w) ->
  nth_error (IDs w) j = Some (evt_Id evt) ->
  nth_error (orig_choices w) j = Some (name, parent, num) ->
  menu_selected callbacks evt w
  = run_callbacks callbacks evt
      (mkWidget (orig_choices w) (IDs w)
         (cb_set_Selection (Z.of_nat j) (combo_dlg w))
         (if Py.str_truthy parent
          then "(from " ++ parent ++ " #" ++ Py.fmt_02d num ++ ")" else "")).
Proof. apply menu_selected_selects. Qed.

Lemma X22_menu_selected_selects_witness :
  let w :=
    mkWidget [("Nuclei", "IdentifyPrimaryObjects", 2); ("DNA", "", 1)] [100; 101]
      (PlainCombo.mk ["Nuclei"; "DNA"] "DNA" 1) "" in
  menu_selected [] (mkEvent 100) w
  = run_callbacks [] (mkEvent 100)
      (mkWidget (orig_choices w) (IDs w)
         (cb_set_Selection (Z.of_nat 0) (combo_dlg w))
         (if Py.str_truthy "IdentifyPrimaryObjects"
          then "(from " ++ "IdentifyPrimaryObjects" ++ " #" ++ Py.fmt_02d 2 ++ ")"
          else "")).
Proof.
  intros w.
  apply (X22_menu_selected_selects PlainCombo.t PlainCombo.combo
           plain_combo_select [] (mkEvent 100) w 0
           "Nuclei" "IdentifyPrimaryObjects" 2).
  - intros i c. reflexivity.
  - repeat constructor; simpl; intuition discriminate.
  - reflexivity.
  - reflexivity.
Defined.

(** X23: an identifier without a choice.  With distinct identifiers and a
    combo box that reads back its Selection: when the event carries the
    identifier at a position j of IDs at or beyond the end of the choices
    (IDs are not renewed by SetItems), menu_selected raises IndexError
    after Selection has been assigned j; the annotation is not updated and
    no callback is called. *)
Theorem X23_menu_selected_beyond_choices
    (C : Type) (combo : ComboBox C) (sel : ComboBoxSelect C)
    (callbacks : list (callback C)) (evt : CommandEvent)
    (w : NameSubcriberComboBox C) (j : nat) :
  Selection_reads_back C ->
  NoDup (IDs w) ->
  nth_error (IDs w) j = Some (evt_Id evt) ->
  (List.length (orig_choices w) <= j)%nat ->
  menu_selected callbacks evt w
  = (set_combo (cb_set_Selection (Z.of_nat j)) w, inl Py.IndexError).
Proof.
  intros Hlaw Hnd Hid Hlen.
  rewrite (menu_selected_found callbacks evt w (Z.of_nat j))
    by now apply list_index_nth.
  apply choice_made_out_of_range.
  cbn [set_combo orig_choices combo_dlg]. rewrite Hlaw. lia.
Qed.

Lemma X23_menu_selected_beyond_choices_witness :
  let w :=
    mkWidget [("Nuclei", "IdentifyPrimaryObjects", 2)] [100; 101]
      (PlainCombo.mk ["Nuclei"] "Nuclei" 0) "" in
  menu_selected [] (mkEvent 101) w
  = (set_combo (cb_set_Selection (Z.of_nat 1)) w, inl Py.IndexError).
Proof.
  intros w.
  apply (X23_menu_selected_beyond_choices PlainCombo.t PlainCombo.combo
           plain_combo_select [] (mkEvent 101) w 1).
  - intros i c. reflexivity.
  - repeat constructor; simpl; intuition discriminate.
  - reflexivity.
  - simpl. lia.
Defined.

(** X24: callbacks run in the order of registration.  A callback added
    with add_callback runs after those registered before it, on the widget
    as they left it, and only if none of them raised. *)
Theorem X24_callbacks_in_order
    (C : Type) (cb : callback C) (callbacks : list (callback C))
    (evt : CommandEvent) (w : NameSubcriberComboBox C) :
  run_callbacks (add_callback cb callbacks) evt w
  = match run_callbacks callbacks evt w with
    | (w', inr _) => cb evt w'
    | (w', inl e) => (w', inl e)
    end.
Proof.
  unfold add_callback.
  revert w; induction callbacks as [|cb0 cbs IH]; intros w.
  - cbn [app run_callbacks]. rewrite bind_ret_unit. reflexivity.
  - cbn [app run_callbacks]. unfold bind.
    destruct (cb0 evt w) as [w0 [e|[]]]; [reflexivity|]. apply IH.
Qed.

(** X25: choice_made begins by indexing the choices with Selection.  When
    Selection is out of their range, and so whenever there are no choices
    at all, it raises IndexError and leaves the widget untouched: the
    annotation is not updated and no callback is called. *)
Theorem X25_choice_made_out_of_range
    (C : Type) (combo : ComboBox C)
    (callbacks : list (callback C)) (evt : CommandEvent)
    (w : NameSubcriberComboBox C) :
  let n := Z.of_nat (List.length (orig_choices w)) in
  cb_Selection (combo_dlg w) < - n \/ n <= cb_Selection (combo_dlg w) ->
  choice_made callbacks evt w = (w, inl Py.IndexError).
Proof.
  cbv zeta. intros Hout.
  cbv beta iota delta [choice_made bind gets lift].
  now rewrite index_out_of_range.
Qed.

Lemma X25_choice_made_out_of_range_witness :
  choice_made [] (mkEvent 0)
    (mkWidget [] [] (PlainCombo.mk [] "" (-1)) "")
  = (mkWidget [] [] (PlainCombo.mk [] "" (-1)) "", inl Py.IndexError).
Proof.
  apply (X25_choice_made_out_of_range PlainCombo.t PlainCombo.combo []
           (mkEvent 0) (mkWidget [] [] (PlainCombo.mk [] "" (-1)) "")).
  left. simpl. lia.
Defined.

(** ** From the popup menu back to the choice *)

Lemma nth_error_combine_inv {A B : Type} (ls : list A) (rs : list B)
    (i : nat) (l : A) (r : B) :
  nth_error (combine ls rs) i = Some (l, r) ->
  nth_error ls i = Some l /\ nth_error rs i = Some r.
Proof.
  revert rs i; induction ls as [|a ls IH]; intros [|b rs] [|i]; simpl;
    try discriminate.
  - now intros [= -> ->].
  - apply IH.
Qed.

Lemma choices_sorted_by_num_origin (orig_choices : list choice) (IDs : list Z)
    (c : menu_choice) :
  In c (choices_sorted_by_num orig_choices IDs) ->
  exists j : nat,
    nth_error orig_choices j = Some (mc_name c, mc_annotation c, mc_num c) /\
    nth_error IDs j = Some (mc_id c).
Proof.
  unfold choices_sorted_by_num. intros Hin.
  apply in_map_iff in Hin as (t & <- & Ht).
  apply sorted_In in Ht. apply in_map_iff in Ht as (p & <- & Hp).
  apply In_nth_error in Hp as (j & Hj).
  destruct p as [[[n a] num] i].
  apply nth_error_combine_inv in Hj as [Hc Hi].
  exists j. split; assumption.
Qed.

(** X26: the popup menu and its handler agree.  Let the identifiers be
    distinct and the combo box read back its Selection.  For every entry
    that right_menu puts in the "All" submenu, that is for every element
    (name, annotation, num, id) of choices_sorted_by_num, menu_selected
    called with the entry's identifier selects a position j at which the
    choices hold exactly (name, annotation, num), sets the annotation of
    that choice, and runs the callbacks. *)
Theorem X26_menu_entry_selects_its_choice
    (C : Type) (combo : ComboBox C) (sel : ComboBoxSelect C)
    (callbacks : list (callback C)) (w : NameSubcriberComboBox C)
    (c : menu_choice) :
  Selection_reads_back C ->
  NoDup (IDs w) ->
  In c (choices_sorted_by_num (orig_choices w) (IDs w)) ->
  exists j : nat,
    nth_error (orig_choices w) j = Some (mc_name c, mc_annotation c, mc_num c) /\
    menu_selected callbacks (mkEvent (mc_id c)) w
    = run_callbacks callbacks (mkEvent (mc_id c))
        (mkWidget (orig_choices w) (IDs w)
           (cb_set_Selection (Z.of_nat j) (combo_dlg w))
           (if Py.str_truthy (mc_annotation c)
            then "(from " ++ mc_annotation c ++ " #"
                 ++ Py.fmt_02d (mc_num c) ++ ")"
            else "")).
Proof.
  intros Hlaw Hnd Hin.
  destruct (choices_sorted_by_num_origin _ _ _ Hin) as (j & Hc & Hi).
  exists j. split; [exact Hc|].
  now apply (menu_selected_selects C combo sel callbacks
               (mkEvent (mc_id c)) w j (mc_name c)).
Qed.

Lemma X26_menu_entry_selects_its_choice_witness :
  let w :=
    mkWidget [("Nuclei", "IdentifyPrimaryObjects", 2); ("DNA", "", 1)] [100; 101]
      (PlainCombo.mk ["Nuclei"; "DNA"] "DNA" 1) "" in
  let c : menu_choice := ("Nuclei", "IdentifyPrimaryObjects", 2, 100) in
  exists j : nat,
    nth_error (orig_choices w) j = Some (mc_name c, mc_annotation c, mc_num c) /\
    menu_selected [] (mkEvent (mc_id c)) w
    = run_callbacks [] (mkEvent (mc_id c))
        (mkWidget (orig_choices w) (IDs w)
           (cb_set_Selection (Z.of_nat j) (combo_dlg w))
           (if Py.str_truthy (mc_annotation c)
            then "(from " ++ mc_annotation c ++ " #"
                 ++ Py.fmt_02d (mc_num c) ++ ")"
            else "")).
Proof.
  intros w c.
  apply (X26_menu_entry_selects_its_choice PlainCombo.t PlainCombo.combo
           plain_combo_select [] w c).
  - intros i x. reflexivity.
  - repeat constructor; simpl; intuition discriminate.
  - vm_compute. right. left. reflexivity.
Defined.
